(** * ErrorPatternDetector (sweagent/agent/pattern_detector.py)

    A shallow embedding of the detector class and the properties of its
    ingestion, loop detection, suggestion synthesis and statistics.

    Conventions of the embedding
    - Python [str] values are [string]s (the UTF-8 bytes of the source
      literals); error messages are taken over code points below 256, where
      [re.IGNORECASE] against the ASCII-only patterns is ASCII case folding.
    - Python [int] values that may be negative (line numbers, [window_size])
      are [Z]; lengths and counters are [nat].
    - [error_history] is a list in insertion order, [pattern_counters]
      (a [defaultdict(int)]) is an association list in key-insertion order,
      since [max] over its items depends on that order.
    - [add_error] may raise: it is a state transformer that returns the final
      state together with either a value or the exception.
    - Calls to [logger] have no effect on the detector and are left out. *)

From Stdlib Require Import List ZArith QArith Lia Bool Arith DecimalString Permutation.
From Stdlib Require Import Ascii String.
Import ListNotations.

Close Scope Q_scope.
Open Scope string_scope.
Open Scope nat_scope.
Open Scope list_scope.

(** ** Python values found in the [message] slot of a report

    [PyList] stands for a list object (of integers, which is enough to tell
    an empty list from a non-empty one). *)

Inductive PyVal : Type :=
| PyNone
| PyBool (b : bool)
| PyInt (z : Z)
| PyStr (s : string)
| PyBytes (s : string)
| PyList (l : list Z).

(** Truth value of a Python object, as tested by [if not error_message]. *)
Definition truthy (v : PyVal) : bool :=
  match v with
  | PyNone => false
  | PyBool b => b
  | PyInt z => negb (Z.eqb z 0)
  | PyStr s => negb (String.eqb s EmptyString)
  | PyBytes s => negb (String.eqb s EmptyString)
  | PyList l => match l with [] => false | _ :: _ => true end
  end.

Inductive PyExn : Type :=
| ValueError (msg : string)
| TypeError.

(** ** The closed set of error categories *)

Inductive ErrorType : Type :=
| Indentation | Syntax | Undefined | Import | TypeErr | Logic | Unknown.

Definition ErrorType_eq_dec (a b : ErrorType) : {a = b} + {a <> b}.
Proof. decide equality. Defined.

Definition ErrorType_eqb (a b : ErrorType) : bool :=
  if ErrorType_eq_dec a b then true else false.

(** The string each category is in the source. *)
Definition type_name (t : ErrorType) : string :=
  match t with
  | Indentation => "indentation"
  | Syntax => "syntax"
  | Undefined => "undefined"
  | Import => "import"
  | TypeErr => "type"
  | Logic => "logic"
  | Unknown => "unknown"
  end.

(** ** Regular expressions of [known_patterns]

    Every pattern of the table is an alternation of sequences of literal
    text and [.*]; [re.search] looks for a match at any position, and
    [re.IGNORECASE] compares letters regardless of case. *)

Inductive piece : Type :=
| Lit (s : string)
| DotStar.

Definition pattern : Type := list (list piece).

Definition newline : ascii := ascii_of_nat 10.
Definition nl : string := String newline EmptyString.

Definition lower (c : ascii) : ascii :=
  let n := nat_of_ascii c in
  if andb (Nat.leb 65 n) (Nat.leb n 90) then ascii_of_nat (n + 32) else c.

Definition ci_eqb (a b : ascii) : bool := Ascii.eqb (lower a) (lower b).

(** [strip_prefix_ci l s]: the rest of [s] after the literal [l], when [s]
    starts with [l] up to case. *)
Fixpoint strip_prefix_ci (l s : string) : option string :=
  match l with
  | EmptyString => Some s
  | String a l' =>
      match s with
      | EmptyString => None
      | String b s' => if ci_eqb a b then strip_prefix_ci l' s' else None
      end
  end.

(** Does some prefix of [s] match the sequence [ps]? *)
Fixpoint match_here (ps : list piece) (s : string) : bool :=
  match ps with
  | [] => true
  | Lit l :: ps' =>
      match strip_prefix_ci l s with
      | Some rest => match_here ps' rest
      | None => false
      end
  | DotStar :: ps' =>
      (fix skip (s : string) : bool :=
         match_here ps' s ||
         match s with
         | EmptyString => false
         | String c s' => if Ascii.eqb c newline then false else skip s'
         end) s
  end.

Fixpoint search_seq (ps : list piece) (s : string) : bool :=
  match_here ps s ||
  match s with
  | EmptyString => false
  | String _ s' => search_seq ps s'
  end.

(** [re.search(pattern_regex, error_message, re.IGNORECASE)] as a truth value. *)
Definition re_search (p : pattern) (s : string) : bool :=
  existsb (fun ps => search_seq ps s) p.

(** [self.known_patterns], in the insertion order of the dict literal. *)
Definition known_patterns : list (ErrorType * pattern) :=
  [ (Indentation,
      [ [Lit "IndentationError"]; [Lit "unexpected indent"];
        [Lit "expected an indented block"]; [Lit "unindent does not match"] ]);
    (Syntax,
      [ [Lit "SyntaxError"]; [Lit "invalid syntax"]; [Lit "EOF while scanning"];
        [Lit "unterminated string"]; [Lit "unexpected EOF"];
        [Lit "invalid character"] ]);
    (Undefined,
      [ [Lit "NameError"]; [Lit "undefined"]; [Lit "not defined"];
        [Lit "name "; DotStar; Lit " is not defined"] ]);
    (Import,
      [ [Lit "ImportError"]; [Lit "ModuleNotFoundError"]; [Lit "cannot import"];
        [Lit "No module named"] ]);
    (TypeErr,
      [ [Lit "TypeError"]; [Lit "AttributeError"]; [Lit "object has no attribute"];
        [Lit "takes "; DotStar; Lit " positional argument"] ]);
    (Logic,
      [ [Lit "IndexError"]; [Lit "KeyError"]; [Lit "ValueError"];
        [Lit "list index out of range"]; [Lit "dictionary key error"] ]) ].

(** The loop of [_classify_error] over the table: first match wins.  None of
    the patterns is malformed, so the [except re.error] arm is never taken. *)
Fixpoint classify_in (table : list (ErrorType * pattern)) (s : string) : ErrorType :=
  match table with
  | [] => Unknown
  | (name, p) :: rest => if re_search p s then name else classify_in rest s
  end.

(** [_classify_error]: a falsy message is [unknown]; a string is searched;
    any other object makes [re.search] raise [TypeError], which the
    [except re.error] clause does not catch. *)
Definition _classify_error (error_message : PyVal) : ErrorType + PyExn :=
  if negb (truthy error_message) then inl Unknown
  else match error_message with
       | PyStr s => inl (classify_in known_patterns s)
       | _ => inr TypeError
       end.

(** ** Reports, records and the detector state *)

(** The [error_info] dict: each key is absent ([None]) or present.  The
    optional fields carry the types the docstring gives them. *)
Record Report : Type := mkReport {
  r_message : option PyVal;
  r_file : option string;
  r_line : option Z;
  r_action : option string;
  r_code_snippet : option string;
  r_traceback : option string
}.

(** [create_error_info] *)
Definition create_error_info (message file : string) (line : Z)
           (action code_snippet traceback : string) : Report :=
  mkReport (Some (PyStr message)) (Some file) (Some line) (Some action)
           (Some code_snippet) (Some traceback).

(** An entry of [error_history]; [timestamp] is the spec's sequence index. *)
Record ErrorRecord : Type := mkRecord {
  timestamp : nat;
  error_type : ErrorType;
  message : PyVal;
  file : string;
  line : Z;
  action : string;
  code_snippet : string;
  traceback : string
}.

Definition Counters : Type := list (ErrorType * nat).

Record Detector : Type := mkDetector {
  error_history : list ErrorRecord;
  pattern_counters : Counters
}.

(** [__init__] *)
Definition init : Detector := mkDetector [] [].

(** *** [defaultdict(int)] operations, keeping insertion order *)

(** [counters.get(k)] without the default factory. *)
Fixpoint lookup (k : ErrorType) (c : Counters) : option nat :=
  match c with
  | [] => None
  | (k', n) :: rest => if ErrorType_eq_dec k k' then Some n else lookup k rest
  end.

(** The count read for a key: the stored value, 0 for a missing key. *)
Definition count_of (k : ErrorType) (c : Counters) : nat :=
  match lookup k c with Some n => n | None => 0 end.

(** [counters[k] = v]: updates in place, a new key goes last. *)
Fixpoint setitem (k : ErrorType) (v : nat) (c : Counters) : Counters :=
  match c with
  | [] => [(k, v)]
  | (k', n) :: rest =>
      if ErrorType_eq_dec k k' then (k', v) :: rest else (k', n) :: setitem k v rest
  end.

(** [counters[k]] on a [defaultdict(int)]: a missing key is inserted with 0. *)
Definition getitem (k : ErrorType) (c : Counters) : nat * Counters :=
  match lookup k c with
  | Some n => (n, c)
  | None => (0, setitem k 0 c)
  end.

(** [counters[k] += 1] *)
Definition increment (k : ErrorType) (c : Counters) : Counters :=
  let (n, c') := getitem k c in setitem k (n + 1) c'.

(** [sum(counters.values())] *)
Definition sum_counts (c : Counters) : nat :=
  fold_right (fun kv acc => snd kv + acc) 0 c.

(** *** A state-and-exception monad for the methods that may raise *)

Inductive Outcome (A : Type) : Type :=
| Returned (a : A)
| Raised (e : PyExn).
Arguments Returned {A} a.
Arguments Raised {A} e.

Definition M (A : Type) : Type := Detector -> Detector * Outcome A.

Definition ret {A} (a : A) : M A := fun d => (d, Returned a).
Definition raise {A} (e : PyExn) : M A := fun d => (d, Raised e).
Definition bind {A B} (m : M A) (f : A -> M B) : M B :=
  fun d => match m d with
           | (d', Returned a) => f a d'
           | (d', Raised e) => (d', Raised e)
           end.
Definition get_state : M Detector := fun d => (d, Returned d).
Definition put_state (d' : Detector) : M unit := fun _ => (d', Returned tt).
Definition lift {A} (r : A + PyExn) : M A :=
  match r with inl a => ret a | inr e => raise e end.

Notation "x <- m ;; k" := (bind m (fun x => k))
  (at level 61, m at next level, right associativity).
Notation "m ;;; k" := (bind m (fun _ => k))
  (at level 61, right associativity).

Definition or_default {A} (o : option A) (d : A) : A :=
  match o with Some a => a | None => d end.

(** [add_error] *)
Definition add_error (error_info : Report) : M unit :=
  match r_message error_info with
  | None => raise (ValueError "error_info debe contener el campo 'message'")
  | Some msg =>
      ty <- lift (_classify_error msg) ;;
      d <- get_state ;;
      let error_entry :=
        mkRecord (List.length (error_history d)) ty msg
                 (or_default (r_file error_info) EmptyString)
                 (or_default (r_line error_info) 0%Z)
                 (or_default (r_action error_info) EmptyString)
                 (or_default (r_code_snippet error_info) EmptyString)
                 (or_default (r_traceback error_info) EmptyString) in
      put_state (mkDetector (error_history d ++ [error_entry]) (pattern_counters d)) ;;;
      d1 <- get_state ;;
      put_state (mkDetector (error_history d1) (increment ty (pattern_counters d1)))
  end.

(** [reset]: both containers are cleared. *)
Definition reset : M unit :=
  put_state (mkDetector [] []).

(** ** Loop detection *)

(** Python's [l[i:]]: a negative [i] counts from the end, and both ends are
    clamped to the list. *)
Definition py_slice_from {A} (i : Z) (l : list A) : list A :=
  let len := Z.of_nat (List.length l) in
  skipn (Z.to_nat (if (i <? 0)%Z then Z.max (len + i) 0 else i)) l.

Definition string_of_Z (z : Z) : string := NilZero.string_of_int (Z.to_int z).
Definition string_of_nat (n : nat) : string := NilZero.string_of_uint (Nat.to_uint n).

(** [t[0]] for a category name (no name is empty). *)
Definition initial (t : ErrorType) : ascii :=
  match type_name t with
  | String c _ => c
  | EmptyString => Ascii.zero
  end.

(** [all(pattern[i] != pattern[i+1] for i in range(len(pattern)-1))] *)
Fixpoint adjacent_differ (p : string) : bool :=
  match p with
  | String a (String b _ as rest) => negb (Ascii.eqb a b) && adjacent_differ rest
  | _ => true
  end.

(** [_is_alternating] *)
Definition _is_alternating (p : string) : bool :=
  if String.length p <? 4 then false else adjacent_differ p.

Definition type_set (l : list ErrorType) : list ErrorType := nodup ErrorType_eq_dec l.
Definition line_set (l : list Z) : list Z := nodup Z.eq_dec l.
Definition file_set (l : list string) : list string := nodup string_dec l.

Definition nonempty (s : string) : bool := negb (String.eqb s EmptyString).

Section LoopDetector.

(** The text Python prints for [set(error_types)] inside the f-string; the
    order in which a set of strings is displayed is not fixed by the
    program, so the rendering is a parameter. *)
Variable repr_type_set : list ErrorType -> string.

(** 1. the same type throughout the window *)
Definition rule_uniform_type (error_types : list ErrorType) : option string :=
  if List.length (type_set error_types) =? 1 then
    match error_types with
    | t0 :: _ =>
        if ErrorType_eq_dec t0 Unknown then None
        else Some ("Repetitive " ++ type_name t0 ++ " errors detected")%string
    | [] => None
    end
  else None.

(** 2. the same line edited again and again *)
Definition rule_same_line (recent_errors : list ErrorRecord) : option string :=
  let lines := filter (fun l => (0 <? l)%Z) (map line recent_errors) in
  if (3 <=? List.length lines) && (List.length (line_set lines) =? 1) then
    match lines with
    | l0 :: _ => Some ("Repeatedly failing at line " ++ string_of_Z l0)%string
    | [] => None
    end
  else None.

(** 3. two types alternating *)
Definition rule_alternating (error_types : list ErrorType) : option string :=
  if List.length (type_set error_types) =? 2 then
    let pattern := string_of_list_ascii (map initial error_types) in
    if _is_alternating pattern
    then Some ("Alternating between " ++ repr_type_set error_types)%string
    else None
  else None.

(** 4. many errors in one file *)
Definition rule_same_file (recent_errors : list ErrorRecord) : option string :=
  let files := filter nonempty (map file recent_errors) in
  if (List.length (file_set files) =? 1) && (4 <=? List.length files) then
    match files with
    | f0 :: _ =>
        let error_count :=
          List.length (filter (fun e => String.eqb (file e) f0) recent_errors) in
        if 4 <=? error_count
        then Some ("Multiple errors in same file: " ++ f0)%string
        else None
    | [] => None
    end
  else None.

(** [detect_loop] *)
Definition detect_loop (d : Detector) (window_size : Z) : bool * option string :=
  if (Z.of_nat (List.length (error_history d)) <? window_size)%Z then (false, None)
  else
    let recent_errors := py_slice_from (- window_size) (error_history d) in
    let error_types := map error_type recent_errors in
    match rule_uniform_type error_types with
    | Some reason => (true, Some reason)
    | None =>
    match rule_same_line recent_errors with
    | Some reason => (true, Some reason)
    | None =>
    match rule_alternating error_types with
    | Some reason => (true, Some reason)
    | None =>
    match rule_same_file recent_errors with
    | Some reason => (true, Some reason)
    | None => (false, None)
    end end end end.

End LoopDetector.

(** ** Suggestions *)

Definition lines_of (ls : list string) : string := String.concat nl ls.

(** The [suggestions] table of [get_recovery_suggestion], with the fallback
    text of [suggestions.get] for a type that has no entry. *)
Definition base_suggestion_for (t : ErrorType) : string :=
  match t with
  | Indentation => lines_of
      [ "⚠️  INDENTATION ERROR - Common fixes:";
        "1. Check that all lines use consistent spacing (4 spaces or 1 tab)";
        "2. Verify the indentation matches the surrounding code";
        "3. Use the 'goto' command to see context around your edit";
        "4. Compare with neighboring functions for proper indentation level" ]
  | Syntax => lines_of
      [ "⚠️  SYNTAX ERROR - Try these steps:";
        "1. Check for missing/extra parentheses, brackets, or quotes";
        "2. Verify the line before/after your edit for completion";
        "3. Review the original code structure before editing";
        "4. Look for unclosed strings, lists, or function calls" ]
  | Undefined => lines_of
      [ "⚠️  UNDEFINED NAME - Likely causes:";
        "1. Missing import statement at the top of the file";
        "2. Variable defined in a different scope";
        "3. Typo in variable/function name";
        "4. Variable defined after it's used";
        "→ Use 'search_file' to find where this name is defined";
        "→ Use 'search_dir' to search across the entire codebase" ]
  | Import => lines_of
      [ "⚠️  IMPORT ERROR - Solutions:";
        "1. Check if the module is available in this environment";
        "2. Verify the import path is correct (relative vs absolute)";
        "3. Look for similar imports elsewhere in the codebase";
        "4. Check if the module needs to be installed";
        "→ Use 'search_dir' to find existing import patterns" ]
  | TypeErr => lines_of
      [ "⚠️  TYPE/ATTRIBUTE ERROR - Check:";
        "1. Variable types match expected operations";
        "2. Object has the attribute/method you're calling";
        "3. Review the object's class definition";
        "4. Check function signatures and argument types";
        "→ Use 'search_file' to find the class/function definition" ]
  | Logic => lines_of
      [ "⚠️  LOGIC ERROR (Index/Key/Value) - Verify:";
        "1. List/dict indices are within bounds";
        "2. Keys exist before accessing them (use .get() or 'in')";
        "3. Check for empty collections before accessing";
        "4. Verify loop ranges and conditions" ]
  | Unknown => lines_of
      [ "⚠️  ERROR DETECTED - Consider a different approach";
        "1. Re-read the error message carefully";
        "2. Review the surrounding code for context";
        "3. Try a simpler, incremental change" ]
  end.

(** The f-string appended when [frequency >= 3]: the text before
    [{frequency}], the number, and the text from [th {error_type} error.] on. *)
Definition frequency_warning_head : string :=
  (nl ++ nl ++ "🚨 WARNING: This is your ")%string.

Definition frequency_warning_tail (t : ErrorType) : string :=
  ("th " ++ type_name t ++ " error." ++ nl ++
   lines_of
     [ "Consider:";
       "- Taking a completely different approach to solve this issue";
       "- Re-reading the file to understand the context better";
       "- Starting with a simpler change first";
       "- Searching for similar code patterns in the repository" ])%string.

Definition frequency_warning (frequency : nat) (t : ErrorType) : string :=
  (frequency_warning_head ++ string_of_nat frequency ++ frequency_warning_tail t)%string.

(** The f-string appended when [total_errors >= 7]. *)
Definition total_warning_head : string :=
  (nl ++ nl ++ "⚠️  TOTAL ERRORS: ")%string.

Definition total_warning_tail : string :=
  (nl ++
   lines_of
     [ "You may be approaching this problem incorrectly.";
       "Consider requesting human assistance or trying a different strategy." ])%string.

Definition total_warning (total_errors : nat) : string :=
  (total_warning_head ++ string_of_nat total_errors ++ total_warning_tail)%string.

(** [self.error_history[-1]] of a non-empty history. *)
Definition last_record (h : list ErrorRecord) : option ErrorRecord :=
  match rev h with
  | [] => None
  | r :: _ => Some r
  end.

(** [get_recovery_suggestion].  Reading [self.pattern_counters[error_type]]
    goes through the [defaultdict], so the method is a state transformer. *)
Definition get_recovery_suggestion : M (option string) :=
  d <- get_state ;;
  match last_record (error_history d) with
  | None => ret None
  | Some recent_error =>
      let ty := error_type recent_error in
      let (frequency, counters) := getitem ty (pattern_counters d) in
      put_state (mkDetector (error_history d) counters) ;;;
      let base_suggestion := base_suggestion_for ty in
      let base_suggestion :=
        if 3 <=? frequency
        then (base_suggestion ++ frequency_warning frequency ty)%string
        else base_suggestion in
      let total_errors := List.length (error_history d) in
      let base_suggestion :=
        if 7 <=? total_errors
        then (base_suggestion ++ total_warning total_errors)%string
        else base_suggestion in
      ret (Some base_suggestion)
  end.

(** [should_suggest_alternative_approach] *)
Definition should_suggest_alternative_approach (d : Detector) : bool :=
  let h := error_history d in
  if List.length h <? 3 then false
  else if (5 <=? List.length h) && (4 <=? List.length (py_slice_from (-5) h)) then true
  else if (3 <=? List.length h) &&
          (let last_3_types := map error_type (py_slice_from (-3) h) in
           (List.length (type_set last_3_types) =? 1) &&
           match last_3_types with
           | t0 :: _ => negb (ErrorType_eqb t0 Unknown)
           | [] => false
           end) then true
  else if 8 <=? List.length h then true
  else false.

(** ** Statistics *)

(** [_count_recovery_attempts]: the loop over adjacent pairs
    [(error_history[i-1], error_history[i])]. *)
Definition is_recovery_attempt (prev_error curr_error : ErrorRecord) : bool :=
  if (line curr_error =? line prev_error)%Z && (0 <? line curr_error)%Z then true
  else if String.eqb (file curr_error) (file prev_error)
          && nonempty (file curr_error)
          && (0 <? line curr_error)%Z && (0 <? line prev_error)%Z
          && (Z.abs (line curr_error - line prev_error) <=? 10)%Z then true
  else false.

Fixpoint _count_recovery_attempts (h : list ErrorRecord) : nat :=
  match h with
  | prev_error :: (curr_error :: _) as rest =>
      (if is_recovery_attempt prev_error curr_error then 1 else 0)
      + _count_recovery_attempts rest
  | _ => 0
  end.

(** The backward scan of [_count_consecutive_same_type], on the reversed
    history below its last record. *)
Fixpoint run_length (last_type : ErrorType) (earlier : list ErrorRecord) : nat :=
  match earlier with
  | [] => 0
  | r :: rest =>
      if ErrorType_eq_dec (error_type r) last_type
      then S (run_length last_type rest) else 0
  end.

Definition _count_consecutive_same_type (h : list ErrorRecord) : nat :=
  match rev h with
  | [] => 0
  | r :: earlier => 1 + run_length (error_type r) earlier
  end.

(** [get_error_rate]; the float is kept as the exact quotient. *)
Definition get_error_rate (h : list ErrorRecord) : Q :=
  match h with
  | [] => 0%Q
  | _ => let window_size := 5 in
         let recent_count := Nat.min (List.length h) window_size in
         (inject_Z (Z.of_nat recent_count) / inject_Z (Z.of_nat window_size))%Q
  end.

(** [max(items, key=lambda x: x[1])]: the first item, in iteration order,
    whose count no later item beats. *)
Fixpoint max_from (best : ErrorType * nat) (rest : Counters) : ErrorType * nat :=
  match rest with
  | [] => best
  | kv :: rest' => if snd best <? snd kv then max_from kv rest' else max_from best rest'
  end.

Definition most_common (c : Counters) : option ErrorType :=
  match c with
  | [] => None
  | kv :: rest => Some (fst (max_from kv rest))
  end.

(** The values of the statistics dict. *)
Inductive StatValue : Type :=
| SInt (n : nat)
| SFloat (q : Q)
| SByType (c : Counters)
| SType (t : option ErrorType).

Definition Stats : Type := list (string * StatValue).

(** [stats[key]]: the value under a key, if the key is in the dict. *)
Fixpoint stat (key : string) (s : Stats) : option StatValue :=
  match s with
  | [] => None
  | (k, v) :: rest => if String.eqb key k then Some v else stat key rest
  end.

(** [get_statistics] *)
Definition get_statistics (d : Detector) : Stats :=
  match error_history d with
  | [] =>
      [ ("total_errors", SInt 0);
        ("by_type", SByType []);
        ("recent_errors", SInt 0);
        ("recovery_attempts", SInt 0);
        ("most_common_error", SType None);
        ("unique_files_affected", SInt 0);
        ("avg_errors_per_file", SFloat 0%Q) ]
  | _ :: _ =>
      let h := error_history d in
      let unique_files := file_set (filter nonempty (map file h)) in
      [ ("total_errors", SInt (List.length h));
        ("by_type", SByType (pattern_counters d));
        ("recent_errors", SInt (List.length (py_slice_from (-5) h)));
        ("recovery_attempts", SInt (_count_recovery_attempts h));
        ("most_common_error", SType (most_common (pattern_counters d)));
        ("unique_files_affected", SInt (List.length unique_files));
        ("avg_errors_per_file",
          SFloat (inject_Z (Z.of_nat (List.length h))
                  / inject_Z (Z.of_nat (Nat.max 1 (List.length unique_files))))%Q);
        ("error_rate", SFloat (get_error_rate h));
        ("consecutive_same_type", SInt (_count_consecutive_same_type h)) ]
  end.

(** ** Running the detector *)

Inductive Op : Type :=
| OpAdd (error_info : Report)
| OpReset.

(** One call; an exception leaves the caller with the state at the raise. *)
Definition step (d : Detector) (o : Op) : Detector :=
  match o with
  | OpAdd error_info => fst (add_error error_info d)
  | OpReset => fst (reset d)
  end.

Definition run (ops : list Op) : Detector := fold_left step ops init.

(** The states a detector can be in: those of a fresh detector after any
    calls of [add_error] and [reset]. *)
Definition reachable (d : Detector) : Prop := exists ops, d = run ops.

(** ** Vocabulary of the specification *)

(** The message values [_classify_error] classifies: the falsy ones, and
    strings. *)
Definition classifiable (v : PyVal) : Prop :=
  truthy v = false \/ exists s, v = PyStr s.

(** The effect of a successful [add_error] on a report [r] carrying the
    message [v]: one more record, stamped with the previous length, and one
    more in the count of its category only. *)
Definition records_one_error (r : Report) (v : PyVal) (d : Detector) : Prop :=
  let d' := fst (add_error r d) in
  exists t,
    _classify_error v = inl t /\
    snd (add_error r d) = Returned tt /\
    List.length (error_history d') = S (List.length (error_history d)) /\
    count_of t (pattern_counters d') = S (count_of t (pattern_counters d)) /\
    (forall t', t' <> t ->
       count_of t' (pattern_counters d') = count_of t' (pattern_counters d)) /\
    exists e, error_history d' = error_history d ++ [e] /\
              timestamp e = List.length (error_history d) /\
              error_type e = t.

(** The last [n] records of a history (all of them when there are fewer). *)
Definition last_records {A} (n : nat) (h : list A) : list A :=
  skipn (List.length h - n) h.

(** The records of a window share the type [t]: there is a record, and
    every record has type [t]. *)
Definition shares_type (t : ErrorType) (win : list ErrorRecord) : Prop :=
  win <> [] /\ Forall (fun r => error_type r = t) win.

(** [history[i].timestamp == i] for every index. *)
Definition timestamps_in_order (h : list ErrorRecord) : Prop :=
  forall i r, nth_error h i = Some r -> timestamp r = i.

Definition state_invariant (d : Detector) : Prop :=
  timestamps_in_order (error_history d) /\
  sum_counts (pattern_counters d) = List.length (error_history d).

(** A sequence of types alternates strictly: no two adjacent records share
    a type. *)
Fixpoint alternates (l : list ErrorType) : bool :=
  match l with
  | a :: (b :: _) as rest => negb (ErrorType_eqb a b) && alternates rest
  | _ => true
  end.

(** The index of the first occurrence of [t] in [l] (the length of [l] when
    [t] does not occur). *)
Fixpoint first_index (t : ErrorType) (l : list ErrorType) : nat :=
  match l with
  | [] => 0
  | x :: rest => if ErrorType_eq_dec x t then 0 else S (first_index t rest)
  end.

(** The keys of the counters, in iteration order. *)
Definition keys (c : Counters) : list ErrorType := map fst c.

(** The types of the records of a history, oldest first. *)
Definition history_types (d : Detector) : list ErrorType :=
  map error_type (error_history d).

(** The counters follow a sequence of types: the keys are the types seen,
    each once, every count is positive, and the keys are ordered by first
    occurrence. *)
Definition counters_track (c : Counters) (l : list ErrorType) : Prop :=
  NoDup (keys c) /\
  (forall t, In t (keys c) <-> In t l) /\
  (forall kv, In kv c -> 1 <= snd kv) /\
  (forall t t', In t (keys c) -> In t' (keys c) ->
                first_index t (keys c) < first_index t' (keys c) ->
                first_index t l < first_index t' l).





(** ** Sample histories *)

Definition report_of (msg : string) : Report :=
  mkReport (Some (PyStr msg)) None None None None None.

(** A report whose message is the integer 5. *)
Definition integer_message_report : Report :=
  mkReport (Some (PyInt 5)) None None None None None.

(** Scenario A: five indentation errors in one file, on increasing lines. *)
Definition scenario_A : Detector :=
  run (map (fun l => OpAdd (create_error_info "IndentationError: unexpected indent"
                                              "test.py" l "edit" EmptyString EmptyString))
           [10; 11; 12; 13; 14]%Z).

(** Indentation and import errors in turn, with no file and no line. *)
Definition indentation_import_history : Detector :=
  run [ OpAdd (report_of "IndentationError: unexpected indent");
        OpAdd (report_of "ImportError: No module named foo");
        OpAdd (report_of "IndentationError: unexpected indent");
        OpAdd (report_of "ImportError: No module named foo");
        OpAdd (report_of "IndentationError: unexpected indent") ].

(** A history with a tie: syntax and indentation twice each, syntax first. *)
Definition tie_history : Detector :=
  run [ OpAdd (report_of "SyntaxError: invalid syntax");
        OpAdd (report_of "IndentationError: unexpected indent");
        OpAdd (report_of "IndentationError: unexpected indent");
        OpAdd (report_of "SyntaxError: invalid syntax") ].

(** Seven syntax errors on one line of one file. *)
Definition seven_syntax_errors : Detector :=
  run (repeat (OpAdd (create_error_info "SyntaxError: invalid syntax" "script.py" 20
                                        EmptyString EmptyString EmptyString)) 7).

(** Scenario F: two syntax errors and an indentation error in two files. *)
Definition scenario_F : Detector :=
  run [ OpAdd (create_error_info "SyntaxError: invalid syntax" "file1.py" 10
                                 EmptyString EmptyString EmptyString);
        OpAdd (create_error_info "IndentationError: unexpected indent" "file1.py" 20
                                 EmptyString EmptyString EmptyString);
        OpAdd (create_error_info "SyntaxError: EOL while scanning" "file2.py" 5
                                 EmptyString EmptyString EmptyString) ].

(** ** The utility methods *)

(** [get_last_n_errors]: [error_history[-n:]] when the history has at least
    [n] records, a copy of the history otherwise. *)
Definition get_last_n_errors (d : Detector) (n : Z) : list ErrorRecord :=
  if (n <=? Z.of_nat (List.length (error_history d)))%Z
  then py_slice_from (- n) (error_history d)
  else error_history d.

(** [has_error_in_file] *)
Definition has_error_in_file (d : Detector) (filename : string) : bool :=
  existsb (fun e => String.eqb (file e) filename) (error_history d).

(** [get_errors_by_type] *)
Definition get_errors_by_type (d : Detector) (t : ErrorType) : list ErrorRecord :=
  filter (fun e => ErrorType_eqb (error_type e) t) (error_history d).

(** [get_errors_by_file] *)
Definition get_errors_by_file (d : Detector) (filename : string) : list ErrorRecord :=
  filter (fun e => String.eqb (file e) filename) (error_history d).

(** *** A [defaultdict(int)] over any key type, in insertion order

    [get_most_problematic_file] counts by file name and
    [get_problematic_lines] by line number. *)

Section DefaultDict.

Variable K : Type.
Variable K_eq_dec : forall a b : K, {a = b} + {a <> b}.

Fixpoint dd_lookup (k : K) (c : list (K * nat)) : option nat :=
  match c with
  | [] => None
  | (k', n) :: rest => if K_eq_dec k k' then Some n else dd_lookup k rest
  end.

Definition dd_count (k : K) (c : list (K * nat)) : nat :=
  match dd_lookup k c with Some n => n | None => 0 end.

Fixpoint dd_setitem (k : K) (v : nat) (c : list (K * nat)) : list (K * nat) :=
  match c with
  | [] => [(k, v)]
  | (k', n) :: rest =>
      if K_eq_dec k k' then (k', v) :: rest else (k', n) :: dd_setitem k v rest
  end.

(** [c[k] += 1] *)
Definition dd_increment (k : K) (c : list (K * nat)) : list (K * nat) :=
  dd_setitem k (dd_count k c + 1) c.

(** [max(c.items(), key=lambda x: x[1])] from a first item on. *)
Fixpoint dd_max_from (best : K * nat) (rest : list (K * nat)) : K * nat :=
  match rest with
  | [] => best
  | kv :: rest' =>
      if snd best <? snd kv then dd_max_from kv rest' else dd_max_from best rest'
  end.

End DefaultDict.

Arguments dd_lookup {K} K_eq_dec k c.
Arguments dd_count {K} K_eq_dec k c.
Arguments dd_setitem {K} K_eq_dec k v c.
Arguments dd_increment {K} K_eq_dec k c.
Arguments dd_max_from {K} best rest.

(** The counting loop both methods run: every selected record adds one to
    the count under its key. *)
Definition tally {K} (K_eq_dec : forall a b : K, {a = b} + {a <> b})
           (key : ErrorRecord -> K) (sel : ErrorRecord -> bool)
           (h : list ErrorRecord) : list (K * nat) :=
  fold_left (fun c e => if sel e then dd_increment K_eq_dec (key e) c else c) h [].

(** Number of selected records of [h] whose key is [k]. *)
Definition tallied {K} (K_eq_dec : forall a b : K, {a = b} + {a <> b})
           (key : ErrorRecord -> K) (sel : ErrorRecord -> bool)
           (k : K) (h : list ErrorRecord) : nat :=
  List.length (filter (fun e => sel e && if K_eq_dec (key e) k then true else false) h).

(** What the counting loop has built after a history [h]: each key once,
    with the positive number of selected records under it. *)
Definition tally_ok {K} (K_eq_dec : forall a b : K, {a = b} + {a <> b})
           (key : ErrorRecord -> K) (sel : ErrorRecord -> bool)
           (c : list (K * nat)) (h : list ErrorRecord) : Prop :=
  NoDup (map fst c) /\
  (forall kv, In kv c -> 1 <= snd kv) /\
  (forall k, dd_count K_eq_dec k c = tallied K_eq_dec key sel k h).

(** The loop of [get_most_problematic_file] that fills [file_counts]. *)
Definition file_counts (h : list ErrorRecord) : list (string * nat) :=
  fold_left (fun fc e => if nonempty (file e) then dd_increment string_dec (file e) fc
                         else fc)
            h [].

(** [get_most_problematic_file] *)
Definition get_most_problematic_file (d : Detector) : option string :=
  match error_history d with
  | [] => None
  | _ :: _ =>
      match file_counts (error_history d) with
      | [] => None
      | kv :: rest => Some (fst (dd_max_from kv rest))
      end
  end.

(** The loop of [get_problematic_lines] that fills [line_counts]. *)
Definition line_counts (filename : string) (h : list ErrorRecord) : list (Z * nat) :=
  fold_left (fun lc e => if String.eqb (file e) filename && (0 <? line e)%Z
                         then dd_increment Z.eq_dec (line e) lc else lc)
            h [].

(** [get_problematic_lines] *)
Definition get_problematic_lines (d : Detector) (filename : string) (threshold : Z)
  : list Z :=
  map fst (filter (fun lc => (threshold <=? Z.of_nat (snd lc))%Z)
                  (line_counts filename (error_history d))).

(** ** Further vocabulary *)

(** Number of records of type [t] in the history of [d]. *)
Definition occurrences (t : ErrorType) (d : Detector) : nat :=
  count_occ ErrorType_eq_dec (map error_type (error_history d)) t.

(** A record [e] is a recovery attempt on the record [p] before it: both
    are on the same line and that line is positive, or both name the same
    non-empty file and carry positive lines at most 10 apart. *)
Definition recovery_attempt (p e : ErrorRecord) : Prop :=
  (line e = line p /\ (0 < line e)%Z) \/
  (file e = file p /\ file e <> EmptyString /\
   (0 < line e)%Z /\ (0 < line p)%Z /\ (Z.abs (line e - line p) <= 10)%Z).

(** Two strings that differ in the case of ASCII letters only. *)
Fixpoint same_up_to_case (s1 s2 : string) : bool :=
  match s1, s2 with
  | EmptyString, EmptyString => true
  | String a s1', String b s2' => ci_eqb a b && same_up_to_case s1' s2'
  | _, _ => false
  end.

(** Number of records of [h] in file [f] at line [l]. *)
Definition errors_at (f : string) (l : Z) (h : list ErrorRecord) : nat :=
  List.length (filter (fun e => String.eqb (file e) f && (line e =? l)%Z) h).

(** No call of [reset] among the operations. *)
Definition no_reset (ops : list Op) : Prop := ~ In OpReset ops.

(** Five errors of various types, all at line 42 of one file. *)
Definition same_line_history : Detector :=
  run (map (fun m => OpAdd (create_error_info m "a.py" 42 EmptyString EmptyString
                                              EmptyString))
           [ "SyntaxError: invalid syntax"; "IndentationError: unexpected indent";
             "NameError: name 'x' is not defined"; "SyntaxError: invalid syntax";
             "KeyError: 'k'" ]).

(** Five errors of various types in one file, with no line numbers. *)
Definition same_file_history : Detector :=
  run (map (fun m => OpAdd (mkReport (Some (PyStr m)) (Some "a.py") None None None None))
           [ "SyntaxError: invalid syntax"; "IndentationError: unexpected indent";
             "NameError: name 'x' is not defined"; "SyntaxError: invalid syntax";
             "KeyError: 'k'" ]).

(** Syntax and import errors in turn, with no file and no line. *)
Definition syntax_import_history : Detector :=
  run [ OpAdd (report_of "SyntaxError: invalid syntax");
        OpAdd (report_of "ImportError: No module named foo");
        OpAdd (report_of "SyntaxError: invalid syntax");
        OpAdd (report_of "ImportError: No module named foo");
        OpAdd (report_of "SyntaxError: invalid syntax") ].

(** A syntax error followed by three import errors. *)
Definition import_streak_history : Detector :=
  run [ OpAdd (report_of "SyntaxError: invalid syntax");
        OpAdd (report_of "ImportError: No module named foo");
        OpAdd (report_of "ImportError: No module named bar");
        OpAdd (report_of "ImportError: cannot import name baz") ].

(** * Properties *)

(** ** Counters *)

Lemma lookup_setitem_same k v c : lookup k (setitem k v c) = Some v.
Proof.
  induction c as [|[k' n] c IH]; simpl.
  - destruct (ErrorType_eq_dec k k); congruence.
  - destruct (ErrorType_eq_dec k k') as [->|Hne]; simpl.
    + destruct (ErrorType_eq_dec k' k'); congruence.
    + destruct (ErrorType_eq_dec k k'); [contradiction | exact IH].
Qed.

Lemma lookup_setitem_other k k0 v c :
  k0 <> k -> lookup k0 (setitem k v c) = lookup k0 c.
Proof.
  intros Hne. induction c as [|[k' n] c IH]; simpl.
  - destruct (ErrorType_eq_dec k0 k); [contradiction | reflexivity].
  - destruct (ErrorType_eq_dec k k') as [->|Hk]; simpl.
    + destruct (ErrorType_eq_dec k0 k'); [contradiction | reflexivity].
    + destruct (ErrorType_eq_dec k0 k'); [reflexivity | exact IH].
Qed.

Lemma sum_counts_setitem k v c :
  sum_counts (setitem k v c) + count_of k c = sum_counts c + v.
Proof.
  unfold count_of. induction c as [|[k' n] c IH]; simpl.
  - lia.
  - destruct (ErrorType_eq_dec k k') as [->|Hk]; simpl; lia.
Qed.

Lemma setitem_setitem k v v0 c : setitem k v (setitem k v0 c) = setitem k v c.
Proof.
  induction c as [|[k' n] c IH]; simpl.
  - destruct (ErrorType_eq_dec k k); congruence.
  - destruct (ErrorType_eq_dec k k') as [->|Hk]; simpl.
    + destruct (ErrorType_eq_dec k' k'); congruence.
    + destruct (ErrorType_eq_dec k k'); [contradiction | now rewrite IH].
Qed.

Lemma increment_eq k c : increment k c = setitem k (count_of k c + 1) c.
Proof.
  unfold increment, getitem, count_of.
  destruct (lookup k c) eqn:E; [reflexivity|].
  apply setitem_setitem.
Qed.

Lemma count_of_increment_same k c :
  count_of k (increment k c) = S (count_of k c).
Proof.
  rewrite increment_eq. unfold count_of at 1.
  rewrite lookup_setitem_same. lia.
Qed.

Lemma count_of_increment_other k k0 c :
  k0 <> k -> count_of k0 (increment k c) = count_of k0 c.
Proof.
  intros Hne. rewrite increment_eq. unfold count_of.
  now rewrite lookup_setitem_other.
Qed.

Lemma sum_counts_increment k c :
  sum_counts (increment k c) = S (sum_counts c).
Proof.
  rewrite increment_eq.
  pose proof (sum_counts_setitem k (count_of k c + 1) c). lia.
Qed.

(** ** Ingestion *)

(** What a call of [add_error] does, by the outcome of classification. *)
Lemma add_error_returns r v t d :
  r_message r = Some v -> _classify_error v = inl t ->
  add_error r d =
    (mkDetector
       (error_history d ++
          [mkRecord (List.length (error_history d)) t v
                    (or_default (r_file r) EmptyString)
                    (or_default (r_line r) 0%Z)
                    (or_default (r_action r) EmptyString)
                    (or_default (r_code_snippet r) EmptyString)
                    (or_default (r_traceback r) EmptyString)])
       (increment t (pattern_counters d)),
     Returned tt).
Proof.
  intros Hm Hc. unfold add_error. rewrite Hm.
  unfold bind, lift. rewrite Hc. reflexivity.
Qed.

Lemma add_error_raises r v e d :
  r_message r = Some v -> _classify_error v = inr e ->
  add_error r d = (d, Raised e).
Proof.
  intros Hm Hc. unfold add_error. rewrite Hm.
  unfold bind, lift. rewrite Hc. reflexivity.
Qed.

Lemma add_error_no_message r d :
  r_message r = None ->
  add_error r d = (d, Raised (ValueError "error_info debe contener el campo 'message'")).
Proof.
  intros H. unfold add_error. now rewrite H.
Qed.

Lemma classify_falsy v : truthy v = false -> _classify_error v = inl Unknown.
Proof. intros H. unfold _classify_error. now rewrite H. Qed.

Lemma classify_error_only_type_error v e : _classify_error v = inr e -> e = TypeError.
Proof.
  unfold _classify_error. destruct (negb (truthy v)); [discriminate|].
  destruct v; congruence.
Qed.

Lemma classifiable_classified v : classifiable v -> exists t, _classify_error v = inl t.
Proof.
  intros [Hf | [s ->]].
  - exists Unknown. now apply classify_falsy.
  - unfold _classify_error. destruct (negb (truthy (PyStr s))); eauto.
Qed.

(** C2: a report without the key [message] makes [add_error] raise
    [ValueError], and the detector (history and counters) is what it was. *)
Theorem add_error_missing_message (r : Report) (d : Detector) :
  r_message r = None ->
  add_error r d = (d, Raised (ValueError "error_info debe contener el campo 'message'")).
Proof.
  exact (add_error_no_message r d).
Qed.

Lemma add_error_missing_message_witness :
  add_error (mkReport None (Some "a.py") (Some 3%Z) None None None)
            (mkDetector [mkRecord 0 Syntax (PyStr "SyntaxError") "a.py" 3 EmptyString
                                  EmptyString EmptyString]
                        [(Syntax, 1)])
  = (mkDetector [mkRecord 0 Syntax (PyStr "SyntaxError") "a.py" 3 EmptyString
                          EmptyString EmptyString]
                [(Syntax, 1)],
     Raised (ValueError "error_info debe contener el campo 'message'")).
Proof.
  apply add_error_missing_message. reflexivity.
Defined.

(** C3, as stated, fails: a report whose [message] is the integer 5 has the
    key, yet [re.search] raises [TypeError] and nothing is recorded. *)
Lemma add_error_integer_message_not_recorded :
  r_message integer_message_report = Some (PyInt 5) /\
  add_error integer_message_report init = (init, Raised TypeError) /\
  ~ records_one_error integer_message_report (PyInt 5) init.
Proof.
  split; [reflexivity|]. split; [reflexivity|].
  intros [t [Hc _]]. discriminate Hc.
Qed.

(** C3 (amended): for every prior state and every report whose [message] is
    a string or a falsy value, [add_error] returns, the history grows by one
    record whose timestamp is the previous length, the count of the
    message's category grows by one and no other count changes. *)
Theorem add_error_records_one_error (r : Report) (v : PyVal) (d : Detector) :
  r_message r = Some v -> classifiable v -> records_one_error r v d.
Proof.
  intros Hm Hv. destruct (classifiable_classified v Hv) as [t Ht].
  unfold records_one_error. rewrite (add_error_returns r v t d Hm Ht). simpl.
  exists t. repeat split; trivial.
  - rewrite length_app. simpl. lia.
  - apply count_of_increment_same.
  - intros t' Hne. now apply count_of_increment_other.
  - eexists. repeat split; reflexivity.
Qed.

Lemma add_error_records_one_error_witness :
  records_one_error
    (create_error_info "SyntaxError: invalid syntax" "test_file.py" 42 "str_replace"
                       "def foo(" "Traceback (most recent call last)...")
    (PyStr "SyntaxError: invalid syntax") init.
Proof.
  apply add_error_records_one_error.
  - reflexivity.
  - right. eexists. reflexivity.
Defined.

(** C10: a report that has the key [message] with a falsy value (None, the
    empty string, 0, False, an empty list, ...) raises nothing; a record
    classified [unknown] is appended, and [ValueError] is raised only for a
    report without the key. *)
Theorem add_error_falsy_message (r : Report) (v : PyVal) (d : Detector) :
  r_message r = Some v -> truthy v = false ->
  snd (add_error r d) = Returned tt /\
  (exists e, error_history (fst (add_error r d)) = error_history d ++ [e] /\
             error_type e = Unknown /\ message e = v) /\
  (forall r' d' msg, snd (add_error r' d') = Raised (ValueError msg) ->
                     r_message r' = None).
Proof.
  intros Hm Hf.
  rewrite (add_error_returns r v Unknown d Hm (classify_falsy v Hf)). simpl.
  split; [reflexivity|]. split.
  - eexists. repeat split; reflexivity.
  - intros r' d' msg H. destruct (r_message r') as [v'|] eqn:Hm'; [|reflexivity].
    destruct (_classify_error v') as [t|e] eqn:Hc.
    + rewrite (add_error_returns r' v' t d' Hm' Hc) in H. discriminate.
    + rewrite (add_error_raises r' v' e d' Hm' Hc) in H.
      apply classify_error_only_type_error in Hc. subst e. discriminate.
Qed.

Lemma add_error_falsy_message_witness :
  snd (add_error (mkReport (Some PyNone) None None None None None) init) = Returned tt /\
  (exists e, error_history (fst (add_error (mkReport (Some PyNone) None None None None None)
                                           init))
             = error_history init ++ [e] /\
             error_type e = Unknown /\ message e = PyNone) /\
  (forall r' d' msg, snd (add_error r' d') = Raised (ValueError msg) ->
                     r_message r' = None).
Proof.
  apply add_error_falsy_message; reflexivity.
Defined.

(** ** State invariants *)

Lemma init_invariant : state_invariant init.
Proof.
  split; [|reflexivity].
  intros i r H. destruct i; discriminate H.
Qed.

Lemma timestamps_in_order_snoc h e :
  timestamps_in_order h -> timestamp e = List.length h ->
  timestamps_in_order (h ++ [e]).
Proof.
  intros Hh He i r Hi.
  destruct (Nat.lt_ge_cases i (List.length h)) as [Hlt | Hge].
  - rewrite nth_error_app1 in Hi by exact Hlt. now apply Hh.
  - rewrite nth_error_app2 in Hi by exact Hge.
    destruct (i - List.length h) as [|k] eqn:Ek; simpl in Hi.
    + injection Hi as <-. lia.
    + destruct k; discriminate Hi.
Qed.

Lemma step_invariant d o : state_invariant d -> state_invariant (step d o).
Proof.
  intros [Hts Hsum]. destruct o as [r|]; simpl.
  - destruct (r_message r) as [v|] eqn:Hm.
    + destruct (_classify_error v) as [t|e] eqn:Hc.
      * rewrite (add_error_returns r v t d Hm Hc). simpl. split; simpl.
        -- now apply timestamps_in_order_snoc.
        -- rewrite sum_counts_increment, length_app. simpl. lia.
      * rewrite (add_error_raises r v e d Hm Hc). now split.
    + rewrite (add_error_no_message r d Hm). now split.
  - exact init_invariant.
Qed.

Lemma fold_step_invariant ops : forall d,
  state_invariant d -> state_invariant (fold_left step ops d).
Proof.
  induction ops as [|o ops IH]; intros d Hd; simpl.
  - exact Hd.
  - apply IH. now apply step_invariant.
Qed.

(** C4: after any sequence of [add_error] and [reset] calls on a fresh
    detector (failed calls included), every record's timestamp is its index
    and the counters sum to the length of the history. *)
Theorem run_state_invariant (ops : list Op) :
  (forall i r, nth_error (error_history (run ops)) i = Some r -> timestamp r = i) /\
  sum_counts (pattern_counters (run ops)) = List.length (error_history (run ops)).
Proof.
  exact (fold_step_invariant ops init init_invariant).
Qed.

(** ** Windows *)

Lemma py_slice_last {A} (w : Z) (h : list A) :
  (0 < w)%Z -> py_slice_from (- w) h = last_records (Z.to_nat w) h.
Proof.
  intros Hw. unfold py_slice_from, last_records.
  destruct (- w <? 0)%Z eqn:E; [|apply Z.ltb_ge in E; lia].
  f_equal. lia.
Qed.

Lemma last_records_nonpositive {A} (w : Z) (h : list A) :
  (w <= 0)%Z -> last_records (Z.to_nat w) h = [].
Proof.
  intros Hw. unfold last_records.
  replace (Z.to_nat w) with 0 by lia.
  rewrite Nat.sub_0_r. apply skipn_all.
Qed.

Lemma type_set_shared t (l : list ErrorType) :
  l <> [] -> Forall (fun x => x = t) l -> type_set l = [t].
Proof.
  unfold type_set. induction l as [|x l IH]; intros Hne Hall; [congruence|].
  inversion Hall as [|? ? Hx Hl]; subst. simpl.
  destruct l as [|y l].
  - reflexivity.
  - destruct (in_dec ErrorType_eq_dec t (y :: l)) as [_|Hn].
    + apply IH; [discriminate | exact Hl].
    + exfalso. apply Hn. inversion Hl; subst. now left.
Qed.

Lemma shares_type_types t win :
  shares_type t win ->
  exists rest, map error_type win = t :: rest /\ type_set (map error_type win) = [t].
Proof.
  intros [Hne Hall]. destruct win as [|r win]; [congruence|].
  assert (Hall' : Forall (fun x => x = t) (map error_type (r :: win))).
  { apply Forall_map. exact Hall. }
  split with (map error_type win). split.
  - simpl. inversion Hall; subst. reflexivity.
  - apply type_set_shared; [discriminate | exact Hall'].
Qed.

(** ** Loop detection *)

(** C5: [detect_loop] answers (False, None) whenever the history is shorter
    than the window; and when the history holds a full window whose records
    share one type other than [unknown], it answers True with the reason
    naming that type, whatever the files and lines of the records. *)
Theorem detect_loop_short_or_uniform
        (repr_type_set : list ErrorType -> string) (d : Detector) (window_size : Z) :
  ((Z.of_nat (List.length (error_history d)) < window_size)%Z ->
   detect_loop repr_type_set d window_size = (false, None)) /\
  (forall t,
     (window_size <= Z.of_nat (List.length (error_history d)))%Z ->
     shares_type t (last_records (Z.to_nat window_size) (error_history d)) ->
     t <> Unknown ->
     detect_loop repr_type_set d window_size =
       (true, Some ("Repetitive " ++ type_name t ++ " errors detected")%string)).
Proof.
  split.
  - intros Hlt. unfold detect_loop.
    apply Z.ltb_lt in Hlt. now rewrite Hlt.
  - intros t Hge Hwin Hunk. unfold detect_loop.
    destruct (Z.of_nat (List.length (error_history d)) <? window_size)%Z eqn:E;
      [apply Z.ltb_lt in E; lia|].
    destruct (Z.le_gt_cases window_size 0) as [Hw | Hw].
    + rewrite (last_records_nonpositive window_size _ Hw) in Hwin.
      destruct Hwin as [Hne _]. congruence.
    + rewrite py_slice_last by lia.
      destruct (shares_type_types t _ Hwin) as [rest [Hty Hset]].
      unfold rule_uniform_type. rewrite Hset, Hty. simpl.
      destruct (ErrorType_eq_dec t Unknown); [contradiction | reflexivity].
Qed.

Lemma detect_loop_short_or_uniform_witness :
  detect_loop (fun _ => EmptyString) init 5 = (false, None) /\
  detect_loop (fun _ => EmptyString) scenario_A 5 =
    (true, Some ("Repetitive " ++ type_name Indentation ++ " errors detected")%string).
Proof.
  split.
  - apply (proj1 (detect_loop_short_or_uniform (fun _ => EmptyString) init 5)).
    simpl. lia.
  - apply (proj2 (detect_loop_short_or_uniform (fun _ => EmptyString) scenario_A 5)
                 Indentation).
    + simpl. lia.
    + vm_compute. split; [discriminate | repeat constructor].
    + discriminate.
Defined.

(** C1: on a full window of five records that alternate between
    [indentation] and [import] (two distinct types, no two adjacent records
    of one type, the uniform-type and same-line rules silent),
    [detect_loop] answers (False, None): both names begin with the letter i,
    so the string of initials handed to [_is_alternating] is constant. *)
Theorem detect_loop_indentation_import :
  history_types indentation_import_history
    = [Indentation; Import; Indentation; Import; Indentation] /\
  List.length (type_set (history_types indentation_import_history)) = 2 /\
  alternates (history_types indentation_import_history) = true /\
  rule_uniform_type (history_types indentation_import_history) = None /\
  rule_same_line (last_records 5 (error_history indentation_import_history)) = None /\
  string_of_list_ascii (map initial (history_types indentation_import_history)) = "iiiii" /\
  forall repr_type_set,
    detect_loop repr_type_set indentation_import_history 5 = (false, None).
Proof.
  repeat split; vm_compute; reflexivity.
Qed.

(** What the alternation rule does achieve: with two types whose names
    begin with different letters, a full strictly alternating window of at
    least four records is reported. *)

Lemma type_set_two (a b : ErrorType) (l : list ErrorType) :
  a <> b -> (forall t, In t l <-> t = a \/ t = b) ->
  List.length (type_set l) = 2.
Proof.
  intros Hab Hin.
  assert (P : Permutation (type_set l) [a; b]).
  { apply NoDup_Permutation.
    - apply NoDup_nodup.
    - constructor; [simpl; intuition congruence | constructor; [simpl; tauto | constructor]].
    - intros t. unfold type_set. rewrite nodup_In, Hin. simpl. intuition congruence. }
  apply Permutation_length in P. exact P.
Qed.

Lemma alternates_initials (a b : ErrorType) (l : list ErrorType) :
  initial a <> initial b ->
  Forall (fun t => t = a \/ t = b) l ->
  alternates l = true ->
  adjacent_differ (string_of_list_ascii (map initial l)) = true.
Proof.
  intros Hi Hall. induction Hall as [|x l Hx Hl IH]; intros Halt; [reflexivity|].
  destruct l as [|y l]; [reflexivity|].
  cbn [alternates] in Halt. apply andb_prop in Halt as [Hxy Hrest].
  change (negb (Ascii.eqb (initial x) (initial y)) &&
          adjacent_differ (string_of_list_ascii (map initial (y :: l))) = true).
  rewrite (IH Hrest), andb_true_r.
  apply negb_true_iff, Ascii.eqb_neq.
  apply negb_true_iff in Hxy. unfold ErrorType_eqb in Hxy.
  destruct (ErrorType_eq_dec x y) as [|Hne]; [discriminate|].
  inversion Hl as [|? ? Hy _]; subst.
  destruct Hx as [-> | ->], Hy as [-> | ->]; congruence.
Qed.

Lemma length_initials (l : list ErrorType) :
  String.length (string_of_list_ascii (map initial l)) = List.length l.
Proof. induction l; simpl; congruence. Qed.

(** The alternation rule on two types whose names begin with different
    letters: a full window of at least four records holding exactly these
    two types, strictly alternating, with the first two rules silent, is
    reported as alternating. *)
Lemma detect_loop_alternating_distinct_initials
      (repr_type_set : list ErrorType -> string) (d : Detector) (window_size : Z)
      (a b : ErrorType) :
  let window := last_records (Z.to_nat window_size) (error_history d) in
  let error_types := map error_type window in
  (4 <= window_size <= Z.of_nat (List.length (error_history d)))%Z ->
  a <> b -> (forall t, In t error_types <-> t = a \/ t = b) ->
  alternates error_types = true ->
  rule_uniform_type error_types = None ->
  rule_same_line window = None ->
  initial a <> initial b ->
  detect_loop repr_type_set d window_size =
    (true, Some ("Alternating between " ++ repr_type_set error_types)%string).
Proof.
  intros window error_types Hw Hab Hin Halt Hu Hl Hi.
  unfold detect_loop.
  destruct (Z.of_nat (List.length (error_history d)) <? window_size)%Z eqn:E;
    [apply Z.ltb_lt in E; lia|].
  rewrite py_slice_last by lia.
  fold window. fold error_types. rewrite Hu, Hl.
  unfold rule_alternating.
  rewrite (type_set_two a b error_types Hab Hin). simpl.
  unfold _is_alternating. rewrite length_initials.
  assert (Hlen : List.length error_types = Z.to_nat window_size).
  { unfold error_types, window, last_records.
    rewrite length_map, length_skipn. lia. }
  destruct (List.length error_types <? 4) eqn:E4; [apply Nat.ltb_lt in E4; lia|].
  rewrite (alternates_initials a b); trivial.
  apply Forall_forall. intros t Ht. now apply Hin.
Qed.

(** ** Alternative-approach verdict *)

Lemma length_last_records {A} (n : nat) (h : list A) :
  List.length (last_records n h) = Nat.min n (List.length h).
Proof. unfold last_records. rewrite length_skipn. lia. Qed.

Lemma type_set_singleton (l : list ErrorType) :
  List.length (type_set l) = 1 ->
  exists t rest, l = t :: rest /\ Forall (fun x => x = t) l.
Proof.
  intros H. destruct (type_set l) as [|t [|u r]] eqn:E; try discriminate.
  assert (Hall : Forall (fun x => x = t) l).
  { apply Forall_forall. intros x Hx.
    assert (Hx' : In x (type_set l)) by (unfold type_set; now apply nodup_In).
    rewrite E in Hx'. destruct Hx' as [<- | []]. reflexivity. }
  destruct l as [|x rest]; [discriminate E|].
  exists t, rest. inversion Hall; subst. now split.
Qed.

Lemma ErrorType_eqb_eq a b : ErrorType_eqb a b = true <-> a = b.
Proof.
  unfold ErrorType_eqb. destruct (ErrorType_eq_dec a b); split; congruence.
Qed.

(** The test on the last three records, as a proposition. *)
Lemma last_three_test (win : list ErrorRecord) :
  (List.length (type_set (map error_type win)) =? 1) &&
  match map error_type win with
  | t0 :: _ => negb (ErrorType_eqb t0 Unknown)
  | [] => false
  end = true
  <-> exists t, t <> Unknown /\ shares_type t win.
Proof.
  split.
  - intros H. apply andb_prop in H as [H1 H2]. apply Nat.eqb_eq in H1.
    destruct (type_set_singleton _ H1) as [t [rest [Hl Hall]]].
    rewrite Hl in H2. exists t. split.
    + intros ->. now rewrite (proj2 (ErrorType_eqb_eq Unknown Unknown) eq_refl) in H2.
    + split.
      * intros ->. discriminate Hl.
      * now apply Forall_map in Hall.
  - intros [t [Hunk Hs]].
    destruct (shares_type_types t win Hs) as [rest [Hty Hset]].
    rewrite Hset, Hty. simpl.
    destruct (ErrorType_eqb t Unknown) eqn:E; [|reflexivity].
    apply ErrorType_eqb_eq in E. contradiction.
Qed.

(** C8: [should_suggest_alternative_approach] is True exactly when the
    history has at least 5 records, or at least 3 records the last 3 of which
    share one type other than [unknown]; so it is True for every history of
    5 or more records and False for every history shorter than 3. *)
Theorem should_suggest_alternative_approach_iff (d : Detector) :
  let h := error_history d in
  (should_suggest_alternative_approach d = true <->
     5 <= List.length h \/
     (3 <= List.length h /\ exists t, t <> Unknown /\ shares_type t (last_records 3 h))) /\
  (5 <= List.length h -> should_suggest_alternative_approach d = true) /\
  (List.length h < 3 -> should_suggest_alternative_approach d = false).
Proof.
  cbv zeta. unfold should_suggest_alternative_approach.
  rewrite (py_slice_last 5 (error_history d) eq_refl : py_slice_from (-5) _ = last_records 5 _).
  rewrite (py_slice_last 3 (error_history d) eq_refl : py_slice_from (-3) _ = last_records 3 _).
  rewrite length_last_records.
  destruct (List.length (error_history d) <? 3) eqn:E3.
  { apply Nat.ltb_lt in E3.
    repeat split; try lia; try discriminate; try (intros [H | [H _]]; lia). }
  apply Nat.ltb_ge in E3.
  destruct (5 <=? List.length (error_history d)) eqn:E5.
  { apply Nat.leb_le in E5.
    replace (4 <=? Nat.min 5 (List.length (error_history d))) with true
      by (symmetry; apply Nat.leb_le; lia).
    simpl. repeat split; try lia; auto. }
  apply Nat.leb_gt in E5. cbn [andb].
  replace (3 <=? List.length (error_history d)) with true
    by (symmetry; apply Nat.leb_le; lia).
  replace (8 <=? List.length (error_history d)) with false
    by (symmetry; apply Nat.leb_gt; lia).
  cbn [andb].
  pose proof (last_three_test (last_records 3 (error_history d))) as T.
  destruct ((List.length (type_set (map error_type (last_records 3 (error_history d)))) =? 1) &&
            match map error_type (last_records 3 (error_history d)) with
            | t0 :: _ => negb (ErrorType_eqb t0 Unknown)
            | [] => false
            end) eqn:ET.
  - repeat split; try lia; auto.
    intros _. right. split; [lia|]. now apply T.
  - repeat split; try lia; try discriminate.
    intros [H | [_ H]]; [lia|]. apply T in H. discriminate.
Qed.

(** ** Statistics *)

(** C6: for an empty history (whatever the counters) the dict returned by
    [get_statistics] has exactly seven keys; [error_rate] and
    [consecutive_same_type] are not among them. *)
Theorem get_statistics_empty_keys (c : Counters) :
  map fst (get_statistics (mkDetector [] c)) =
    [ "total_errors"; "by_type"; "recent_errors"; "recovery_attempts";
      "most_common_error"; "unique_files_affected"; "avg_errors_per_file" ] /\
  stat "error_rate" (get_statistics (mkDetector [] c)) = None /\
  stat "consecutive_same_type" (get_statistics (mkDetector [] c)) = None.
Proof. repeat split. Qed.

(** The other branch of [get_statistics] does return both fields. *)
Lemma get_statistics_nonempty_fields (d : Detector) :
  error_history d <> [] ->
  stat "error_rate" (get_statistics d) = Some (SFloat (get_error_rate (error_history d))) /\
  stat "consecutive_same_type" (get_statistics d) =
    Some (SInt (_count_consecutive_same_type (error_history d))).
Proof.
  intros H. unfold get_statistics.
  destruct (error_history d) as [|r h]; [congruence|]. split; reflexivity.
Qed.

(** *** The counters of a reachable detector follow its history *)

Lemma first_index_app_in t l l' :
  In t l -> first_index t (l ++ l') = first_index t l.
Proof.
  induction l as [|x l IH]; intros H; [contradiction|]. simpl.
  destruct (ErrorType_eq_dec x t) as [|Hne]; [reflexivity|].
  destruct H as [H|H]; [contradiction|]. now rewrite IH.
Qed.

Lemma first_index_app_notin t l l' :
  ~ In t l -> first_index t (l ++ l') = List.length l + first_index t l'.
Proof.
  induction l as [|x l IH]; intros H; [reflexivity|]. simpl.
  destruct (ErrorType_eq_dec x t) as [->|Hne].
  - exfalso. apply H. now left.
  - rewrite IH; [reflexivity|]. intros Hin. apply H. now right.
Qed.

Lemma first_index_lt_length t l : In t l -> first_index t l < List.length l.
Proof.
  induction l as [|x l IH]; intros H; [contradiction|]. simpl.
  destruct (ErrorType_eq_dec x t) as [|Hne]; [lia|].
  destruct H as [H|H]; [contradiction|]. apply IH in H. lia.
Qed.

Lemma lookup_none k c : lookup k c = None <-> ~ In k (keys c).
Proof.
  induction c as [|[k' n] c IH]; simpl.
  - tauto.
  - destruct (ErrorType_eq_dec k k') as [->|Hne].
    + split; [discriminate | intros H; exfalso; apply H; now left].
    + rewrite IH. split; intros H; [intros [E|E]; congruence || tauto | tauto].
Qed.

Lemma lookup_in k n c : lookup k c = Some n -> In (k, n) c.
Proof.
  induction c as [|[k' n'] c IH]; simpl; [discriminate|].
  destruct (ErrorType_eq_dec k k') as [->|Hne].
  - intros [= ->]. now left.
  - intros H. right. now apply IH.
Qed.

Lemma lookup_app k c1 c2 :
  lookup k (c1 ++ c2) =
    match lookup k c1 with Some n => Some n | None => lookup k c2 end.
Proof.
  induction c1 as [|[k' n'] c1 IH]; simpl; [reflexivity|].
  destruct (ErrorType_eq_dec k k'); [reflexivity | exact IH].
Qed.

Lemma keys_setitem_in k v c : In k (keys c) -> keys (setitem k v c) = keys c.
Proof.
  induction c as [|[k' n] c IH]; simpl; intros H; [contradiction|].
  destruct (ErrorType_eq_dec k k') as [->|Hne]; [reflexivity|].
  simpl. f_equal. apply IH. destruct H as [H|H]; [congruence | exact H].
Qed.

Lemma keys_setitem_notin k v c : ~ In k (keys c) -> keys (setitem k v c) = keys c ++ [k].
Proof.
  induction c as [|[k' n] c IH]; simpl; intros H; [reflexivity|].
  destruct (ErrorType_eq_dec k k') as [->|Hne].
  - exfalso. apply H. now left.
  - simpl. f_equal. apply IH. tauto.
Qed.

Lemma in_setitem kv k v c : In kv (setitem k v c) -> In kv c \/ kv = (k, v).
Proof.
  induction c as [|[k' n] c IH]; simpl.
  - intros [H|[]]. now right.
  - destruct (ErrorType_eq_dec k k') as [->|Hne]; simpl.
    + intros [H|H]; [now right | left; now right].
    + intros [H|H]; [left; now left|]. destruct (IH H); [left; now right | now right].
Qed.

Lemma counters_track_nil : counters_track [] [].
Proof.
  repeat split; simpl; try tauto. constructor.
Qed.

Lemma counters_track_snoc c l x :
  counters_track c l -> counters_track (increment x c) (l ++ [x]).
Proof.
  intros (Hnd & Hkeys & Hpos & Hord). rewrite increment_eq.
  destruct (in_dec ErrorType_eq_dec x (keys c)) as [Hin | Hnin].
  - (* a key already present keeps its place *)
    repeat split.
    + now rewrite keys_setitem_in.
    + rewrite keys_setitem_in by exact Hin. intros H.
      apply in_or_app. left. now apply Hkeys.
    + rewrite keys_setitem_in by exact Hin. intros H.
      apply in_app_or in H as [H | [<- | []]]; [now apply Hkeys | exact Hin].
    + intros kv H. apply in_setitem in H as [H | ->]; [now apply Hpos | simpl; lia].
    + rewrite keys_setitem_in by exact Hin. intros t t' Ht Ht' Hlt.
      rewrite !first_index_app_in by now apply Hkeys.
      now apply Hord.
  - (* a new key goes last *)
    assert (Hxl : ~ In x l) by (intros H; apply Hnin; now apply Hkeys).
    repeat split.
    + rewrite keys_setitem_notin by exact Hnin.
      apply NoDup_app; [exact Hnd | repeat constructor; simpl; tauto |].
      intros a Ha [<- | []]. contradiction.
    + rewrite keys_setitem_notin by exact Hnin. intros H.
      apply in_app_or in H as [H | H]; apply in_or_app;
        [left; now apply Hkeys | now right].
    + rewrite keys_setitem_notin by exact Hnin. intros H.
      apply in_app_or in H as [H | H]; apply in_or_app;
        [left; now apply Hkeys | now right].
    + intros kv H. apply in_setitem in H as [H | ->]; [now apply Hpos | simpl; lia].
    + rewrite keys_setitem_notin by exact Hnin. intros t t' Ht Ht' Hlt.
      apply in_app_or in Ht, Ht'.
      destruct Ht as [Ht | [<- | []]], Ht' as [Ht' | [<- | []]].
      * rewrite !first_index_app_in in Hlt by assumption.
        rewrite !first_index_app_in by now apply Hkeys.
        now apply Hord.
      * rewrite (first_index_app_in t l) by now apply Hkeys.
        rewrite (first_index_app_notin x l) by exact Hxl.
        apply Hkeys, first_index_lt_length in Ht. lia.
      * rewrite (first_index_app_notin x (keys c)) in Hlt by exact Hnin.
        rewrite (first_index_app_in t' (keys c)) in Hlt by exact Ht'.
        apply first_index_lt_length in Ht'. lia.
      * lia.
Qed.

Lemma step_counters_track d o :
  counters_track (pattern_counters d) (history_types d) ->
  counters_track (pattern_counters (step d o)) (history_types (step d o)).
Proof.
  intros H. destruct o as [r|]; simpl.
  - destruct (r_message r) as [v|] eqn:Hm.
    + destruct (_classify_error v) as [t|e] eqn:Hc.
      * rewrite (add_error_returns r v t d Hm Hc). unfold history_types. simpl.
        rewrite map_app. simpl. now apply counters_track_snoc.
      * now rewrite (add_error_raises r v e d Hm Hc).
    + now rewrite (add_error_no_message r d Hm).
  - exact counters_track_nil.
Qed.

Lemma reachable_counters_track d :
  reachable d -> counters_track (pattern_counters d) (history_types d).
Proof.
  intros [ops ->]. unfold run.
  assert (G : forall d0, counters_track (pattern_counters d0) (history_types d0) ->
                         counters_track (pattern_counters (fold_left step ops d0))
                                        (history_types (fold_left step ops d0))).
  { induction ops as [|o ops IH]; intros d0 H0; simpl; [exact H0|].
    apply IH. now apply step_counters_track. }
  apply G. exact counters_track_nil.
Qed.

(** *** [max] returns the first item with the highest count *)

Lemma max_from_first best rest :
  exists pre post,
    best :: rest = pre ++ max_from best rest :: post /\
    (forall p, In p pre -> snd p < snd (max_from best rest)) /\
    (forall p, In p post -> snd p <= snd (max_from best rest)).
Proof.
  revert best. induction rest as [|kv rest IH]; intros best; simpl.
  - exists [], []. repeat split; simpl; tauto.
  - destruct (snd best <? snd kv) eqn:E.
    + apply Nat.ltb_lt in E.
      destruct (IH kv) as (pre & post & Heq & Hpre & Hpost).
      exists (best :: pre), post. repeat split.
      * simpl. now rewrite <- Heq.
      * intros p [<- | Hp]; [|now apply Hpre].
        destruct pre as [|q pre]; simpl in Heq.
        -- injection Heq as Hkv _. rewrite <- Hkv. exact E.
        -- injection Heq as Hq _. subst q.
           specialize (Hpre kv (or_introl eq_refl)). lia.
      * exact Hpost.
    + apply Nat.ltb_ge in E.
      destruct (IH best) as (pre & post & Heq & Hpre & Hpost).
      destruct pre as [|q pre]; simpl in Heq.
      * injection Heq as Hb Hr.
        exists [], (kv :: post). repeat split.
        -- simpl. f_equal; [exact Hb | f_equal; exact Hr].
        -- simpl. tauto.
        -- intros p [<- | Hp]; [rewrite <- Hb; exact E | now apply Hpost].
      * injection Heq as Hq Hr. subst q.
        exists (best :: kv :: pre), post. repeat split.
        -- simpl. do 2 f_equal. exact Hr.
        -- intros p [<- | [<- | Hp]].
           ++ apply Hpre. now left.
           ++ specialize (Hpre best (or_introl eq_refl)). lia.
           ++ apply Hpre. now right.
        -- exact Hpost.
Qed.

Lemma first_maximum_of_counters c kv rest l :
  c = kv :: rest -> counters_track c l ->
  let t := fst (max_from kv rest) in
  (forall t', count_of t' c <= count_of t c) /\
  (forall t', t' <> t -> count_of t' c = count_of t c ->
              first_index t l < first_index t' l).
Proof.
  intros Hc (Hnd & Hkeys & Hpos & Hord) t.
  destruct (max_from_first kv rest) as (pre & post & Heq & Hpre & Hpost).
  rewrite <- Hc in Heq.
  destruct (max_from kv rest) as [t0 n] eqn:Em. simpl in t, Hpre, Hpost. subst t.
  assert (Hk : keys c = keys pre ++ t0 :: keys post).
  { unfold keys. rewrite Heq, map_app. reflexivity. }
  assert (Ht0 : lookup t0 pre = None).
  { apply lookup_none. rewrite Hk in Hnd. apply NoDup_remove_2 in Hnd.
    intros H. apply Hnd. apply in_or_app. now left. }
  assert (Hn : count_of t0 c = n).
  { unfold count_of. rewrite Heq, lookup_app, Ht0. simpl.
    destruct (ErrorType_eq_dec t0 t0); congruence. }
  assert (Hn1 : 1 <= n).
  { apply (Hpos (t0, n)). rewrite Heq. apply in_or_app. right. now left. }
  rewrite Hn. split.
  - intros t'. unfold count_of. destruct (lookup t' c) as [n'|] eqn:El; [|lia].
    apply lookup_in in El. rewrite Heq in El.
    apply in_app_or in El as [El | [El | El]].
    + apply Hpre in El. simpl in El. lia.
    + injection El as _ ->. lia.
    + apply Hpost in El. simpl in El. lia.
  - intros t' Hne Htie.
    assert (Hpre' : lookup t' pre = None).
    { destruct (lookup t' pre) as [n'|] eqn:El; [|reflexivity].
      unfold count_of in Htie. rewrite Heq, lookup_app, El in Htie.
      apply lookup_in, Hpre in El. simpl in El. lia. }
    assert (Hin' : In t' (keys c)).
    { destruct (in_dec ErrorType_eq_dec t' (keys c)) as [H|H]; [exact H|].
      apply lookup_none in H. unfold count_of in Htie. rewrite H in Htie. lia. }
    apply Hord; trivial.
    + rewrite Hk. apply in_or_app. right. now left.
    + rewrite Hk.
      rewrite !first_index_app_notin by now apply lookup_none.
      simpl. destruct (ErrorType_eq_dec t0 t0) as [_|]; [|congruence].
      destruct (ErrorType_eq_dec t0 t'); [congruence | lia].
Qed.

Lemma occurrences_snoc (h : list ErrorRecord) (c c' : Counters) (e : ErrorRecord)
      (t : ErrorType) :
  occurrences t (mkDetector (h ++ [e]) c) =
    occurrences t (mkDetector h c') + (if ErrorType_eq_dec (error_type e) t then 1 else 0).
Proof.
  unfold occurrences. cbn [error_history]. rewrite map_app, count_occ_app. simpl.
  destruct (ErrorType_eq_dec (error_type e) t); reflexivity.
Qed.

Lemma step_counts_occurrences d o :
  (forall t, count_of t (pattern_counters d) = occurrences t d) ->
  forall t, count_of t (pattern_counters (step d o)) = occurrences t (step d o).
Proof.
  intros H t. destruct o as [r|]; simpl; [|reflexivity].
  destruct (r_message r) as [v|] eqn:Hm.
  - destruct (_classify_error v) as [t0|e] eqn:Hc.
    + rewrite (add_error_returns r v t0 d Hm Hc). cbn [fst pattern_counters].
      rewrite (occurrences_snoc _ _ (pattern_counters d)). cbn [error_type].
      replace (mkDetector (error_history d) (pattern_counters d)) with d
        by now destruct d.
      destruct (ErrorType_eq_dec t0 t) as [->|Hne].
      * rewrite count_of_increment_same, H. lia.
      * rewrite count_of_increment_other by congruence. rewrite H. lia.
    + rewrite (add_error_raises r v e d Hm Hc). apply H.
  - rewrite (add_error_no_message r d Hm). apply H.
Qed.

Lemma reachable_counts_occurrences d :
  reachable d -> forall t, count_of t (pattern_counters d) = occurrences t d.
Proof.
  intros [ops ->]. unfold run.
  assert (G : forall d0, (forall t, count_of t (pattern_counters d0) = occurrences t d0) ->
                         forall t, count_of t (pattern_counters (fold_left step ops d0))
                                   = occurrences t (fold_left step ops d0)).
  { induction ops as [|o ops IH]; intros d0 H0; simpl; [exact H0|].
    apply IH. now apply step_counts_occurrences. }
  apply G. reflexivity.
Qed.

(** C9: in a detector reached by [add_error] and [reset] calls whose
    history is not empty, [get_statistics()['most_common_error']] is a type
    that occurs in at least as many records of the history as any other
    type, and every other type with as many records occurs for the first
    time later in the history; the counters hold, for every type, the
    number of its records. *)
Theorem most_common_error_first_seen (d : Detector) :
  reachable d -> error_history d <> [] ->
  exists t,
    stat "most_common_error" (get_statistics d) = Some (SType (Some t)) /\
    (forall t', occurrences t' d <= occurrences t d) /\
    (forall t', t' <> t -> occurrences t' d = occurrences t d ->
                first_index t (history_types d) < first_index t' (history_types d)) /\
    (forall t', count_of t' (pattern_counters d) = occurrences t' d).
Proof.
  intros Hr Hne. pose proof (reachable_counters_track d Hr) as Htr.
  pose proof (reachable_counts_occurrences d Hr) as Hocc.
  destruct (error_history d) as [|r h] eqn:Eh; [congruence|].
  destruct (pattern_counters d) as [|kv rest] eqn:Ec.
  { exfalso. destruct Htr as (_ & Hkeys & _).
    apply (proj2 (Hkeys (error_type r))).
    unfold history_types. rewrite Eh. now left. }
  exists (fst (max_from kv rest)).
  destruct (first_maximum_of_counters (kv :: rest) kv rest (history_types d) eq_refl Htr)
    as [Hmax Htie].
  split; [unfold get_statistics; rewrite Eh, Ec; reflexivity|].
  split; [|split; [|exact Hocc]].
  - intros t'. rewrite <- !Hocc. apply Hmax.
  - intros t' Hne' Heq. apply Htie; [exact Hne'|]. now rewrite !Hocc.
Qed.

Lemma most_common_error_first_seen_witness :
  exists t,
    stat "most_common_error" (get_statistics tie_history) = Some (SType (Some t)) /\
    (forall t', occurrences t' tie_history <= occurrences t tie_history) /\
    (forall t', t' <> t -> occurrences t' tie_history = occurrences t tie_history ->
                first_index t (history_types tie_history)
                < first_index t' (history_types tie_history)) /\
    (forall t', count_of t' (pattern_counters tie_history) = occurrences t' tie_history).
Proof.
  apply most_common_error_first_seen.
  - eexists. reflexivity.
  - vm_compute. discriminate.
Defined.

Example tie_history_most_common :
  pattern_counters tie_history = [(Syntax, 2); (Indentation, 2)] /\
  stat "most_common_error" (get_statistics tie_history) = Some (SType (Some Syntax)).
Proof. split; vm_compute; reflexivity. Qed.

(** ** Text of the suggestions *)





















Lemma last_record_nonempty h : h <> [] -> exists r, last_record h = Some r.
Proof.
  intros H. unfold last_record. destruct (rev h) as [|r l] eqn:E.
  - apply (f_equal (@rev _)) in E. rewrite rev_involutive in E. contradiction.
  - now exists r.
Qed.





Example seven_syntax_errors_suggestion :
  snd (get_recovery_suggestion seven_syntax_errors) =
    Returned (Some (base_suggestion_for Syntax ++ frequency_warning 7 Syntax
                    ++ total_warning 7)%string).
Proof. vm_compute. reflexivity. Qed.

(** ** The scenarios of the test script *)

Example scenario_A_loop (repr_type_set : list ErrorType -> string) :
  detect_loop repr_type_set scenario_A 5 =
    (true, Some "Repetitive indentation errors detected").
Proof. vm_compute. reflexivity. Qed.

Example scenario_D_fresh :
  stat "total_errors" (get_statistics init) = Some (SInt 0) /\
  stat "most_common_error" (get_statistics init) = Some (SType None).
Proof. split; reflexivity. Qed.

Example scenario_F_statistics :
  stat "total_errors" (get_statistics scenario_F) = Some (SInt 3) /\
  stat "by_type" (get_statistics scenario_F) = Some (SByType [(Syntax, 2); (Indentation, 1)]) /\
  stat "unique_files_affected" (get_statistics scenario_F) = Some (SInt 2).
Proof. repeat split; vm_compute; reflexivity. Qed.

(** Reading the counter of the most recent type never inserts a key in a
    reachable detector, so the queries leave such a detector as it is. *)
Lemma get_recovery_suggestion_keeps_state (d : Detector) :
  reachable d -> fst (get_recovery_suggestion d) = d.
Proof.
  intros Hr. apply reachable_counters_track in Hr as (_ & Hkeys & _).
  unfold get_recovery_suggestion, bind, get_state.
  destruct (last_record (error_history d)) as [r|] eqn:El; [|reflexivity].
  assert (Hin : In (error_type r) (keys (pattern_counters d))).
  { apply Hkeys. unfold history_types, last_record in *.
    destruct (rev (error_history d)) as [|r' l] eqn:E; [discriminate|].
    injection El as ->. apply in_map, in_rev. rewrite E. now left. }
  unfold getitem.
  destruct (lookup (error_type r) (pattern_counters d)) eqn:E.
  - destruct d. reflexivity.
  - apply lookup_none in E. contradiction.
Qed.

(** * Further properties of the code *)

(** ** Sequences of calls *)

Lemma reachable_ind (P : Detector -> Prop) :
  P init -> (forall d o, P d -> P (step d o)) -> forall d, reachable d -> P d.
Proof.
  intros H0 Hs d [ops ->]. unfold run.
  assert (G : forall d0, P d0 -> P (fold_left step ops d0)).
  { induction ops as [|o ops IH]; intros d0 Hd0; simpl; [exact Hd0|].
    apply IH, Hs, Hd0. }
  apply G, H0.
Qed.

Lemma step_add_cases d r :
  step d (OpAdd r) = d \/
  exists e, step d (OpAdd r) =
              mkDetector (error_history d ++ [e])
                         (increment (error_type e) (pattern_counters d)) /\
            timestamp e = List.length (error_history d) /\
            file e = or_default (r_file r) EmptyString /\
            line e = or_default (r_line r) 0%Z.
Proof.
  simpl. destruct (r_message r) as [v|] eqn:Hm.
  - destruct (_classify_error v) as [t|e] eqn:Hc.
    + right. rewrite (add_error_returns r v t d Hm Hc). simpl.
      eexists (mkRecord _ t _ _ _ _ _ _). repeat split; reflexivity.
    + left. now rewrite (add_error_raises r v e d Hm Hc).
  - left. now rewrite (add_error_no_message r d Hm).
Qed.

(** A [reset] makes everything before it irrelevant: the detector is the
    one that the calls after the reset alone would have produced. *)
Theorem reset_forgets (ops1 ops2 : list Op) :
  run (ops1 ++ OpReset :: ops2) = run ops2.
Proof.
  unfold run. rewrite fold_left_app. reflexivity.
Qed.

(** Without a [reset], the history only grows at its end: the records
    present before a sequence of calls are still there, in place and
    unchanged, after it. *)
Theorem history_append_only (ops1 ops2 : list Op) :
  no_reset ops2 ->
  exists suffix,
    error_history (run (ops1 ++ ops2)) = error_history (run ops1) ++ suffix /\
    List.length suffix <= List.length ops2.
Proof.
  unfold run. rewrite fold_left_app. generalize (fold_left step ops1 init) as d.
  induction ops2 as [|o ops IH]; intros d Hnr.
  - exists []. simpl. now rewrite app_nil_r.
  - assert (Hnr' : no_reset ops) by (intros H; apply Hnr; now right).
    destruct o as [r|]; [|exfalso; apply Hnr; now left].
    cbn [fold_left List.length].
    destruct (step_add_cases d r) as [Hs | (e & Hs & _)]; rewrite Hs.
    + destruct (IH d Hnr') as (suf & Heq & Hlen).
      exists suf. split; [exact Heq | lia].
    + destruct (IH (mkDetector (error_history d ++ [e])
                               (increment (error_type e) (pattern_counters d))) Hnr')
        as (suf & Heq & Hlen).
      exists (e :: suf). cbn [error_history] in Heq. rewrite <- app_assoc in Heq.
      split; [exact Heq | simpl; lia].
Qed.

Lemma history_append_only_witness :
  exists suffix,
    error_history (run ([OpAdd (report_of "SyntaxError"); OpReset]
                        ++ [OpAdd integer_message_report; OpAdd (report_of "KeyError")]))
    = error_history (run [OpAdd (report_of "SyntaxError"); OpReset]) ++ suffix /\
    List.length suffix <= List.length [OpAdd integer_message_report;
                                       OpAdd (report_of "KeyError")].
Proof.
  apply history_append_only.
  intros [H | [H | []]]; discriminate H.
Defined.

(** ** Counters and the records by type *)

Lemma get_errors_by_type_snoc h c c' e t :
  get_errors_by_type (mkDetector (h ++ [e]) c) t =
    get_errors_by_type (mkDetector h c') t
    ++ (if ErrorType_eqb (error_type e) t then [e] else []).
Proof.
  unfold get_errors_by_type. simpl. rewrite filter_app. reflexivity.
Qed.

Lemma counters_count_records d :
  reachable d ->
  forall t, count_of t (pattern_counters d) = List.length (get_errors_by_type d t).
Proof.
  apply (reachable_ind (fun d => forall t, count_of t (pattern_counters d)
                                           = List.length (get_errors_by_type d t))).
  - reflexivity.
  - intros d0 o IH t. destruct o as [r|]; [|reflexivity].
    destruct (step_add_cases d0 r) as [-> | (e & -> & _)]; [apply IH|].
    rewrite (get_errors_by_type_snoc _ _ (pattern_counters d0)).
    simpl pattern_counters. rewrite length_app.
    replace (mkDetector (error_history d0) (pattern_counters d0)) with d0
      by now destruct d0.
    destruct (ErrorType_eqb (error_type e) t) eqn:E.
    + apply ErrorType_eqb_eq in E. subst t.
      rewrite count_of_increment_same, IH. simpl. lia.
    + rewrite count_of_increment_other, IH; [simpl; lia|].
      intros ->. rewrite (proj2 (ErrorType_eqb_eq _ _) eq_refl) in E. discriminate.
Qed.

(** In a detector reached by [add_error] and [reset] calls, the counters
    hold each type seen in the history once, and the count of every type is
    the number of records [get_errors_by_type] returns for it (0 for a type
    with no key). *)
Theorem counters_agree_with_history (d : Detector) :
  reachable d ->
  NoDup (keys (pattern_counters d)) /\
  (forall t, In t (keys (pattern_counters d)) <-> get_errors_by_type d t <> []) /\
  (forall t, count_of t (pattern_counters d) = List.length (get_errors_by_type d t)).
Proof.
  intros Hr. pose proof (counters_count_records d Hr) as Hcnt.
  destruct (reachable_counters_track d Hr) as (Hnd & Hkeys & Hpos & _).
  split; [exact Hnd|]. split; [|exact Hcnt].
  intros t. split.
  - intros Hin Hnil.
    destruct (lookup t (pattern_counters d)) as [n|] eqn:El.
    + pose proof (Hpos _ (lookup_in _ _ _ El)) as Hn. simpl in Hn.
      specialize (Hcnt t). unfold count_of in Hcnt. rewrite El, Hnil in Hcnt.
      simpl in Hcnt. lia.
    + apply lookup_none in El. contradiction.
  - intros Hne. apply Hkeys. unfold history_types.
    destruct (get_errors_by_type d t) as [|e l] eqn:E; [congruence|].
    assert (He : In e (get_errors_by_type d t)) by (rewrite E; now left).
    unfold get_errors_by_type in He. apply filter_In in He as [He Ht].
    apply ErrorType_eqb_eq in Ht. subst t. now apply in_map.
Qed.

Lemma counters_agree_with_history_witness :
  NoDup (keys (pattern_counters tie_history)) /\
  (forall t, In t (keys (pattern_counters tie_history))
             <-> get_errors_by_type tie_history t <> []) /\
  (forall t, count_of t (pattern_counters tie_history)
             = List.length (get_errors_by_type tie_history t)).
Proof.
  apply counters_agree_with_history. eexists. reflexivity.
Defined.

Lemma by_type_lengths (h : list ErrorRecord) (c : Counters) :
  List.length h =
    fold_right (fun t acc => List.length (get_errors_by_type (mkDetector h c) t) + acc) 0
               [Indentation; Syntax; Undefined; Import; TypeErr; Logic; Unknown].
Proof.
  unfold get_errors_by_type. simpl error_history.
  induction h as [|e h IH]; [reflexivity|].
  cbn [fold_right filter List.length] in *.
  destruct (error_type e); cbn; lia.
Qed.

(** The lists [get_errors_by_type] returns for the seven categories split
    the history: their lengths add up to the length of the history, and a
    record is in the list of a type exactly when it is in the history with
    that type. *)
Theorem errors_by_type_partition (d : Detector) :
  List.length (error_history d) =
    List.length (get_errors_by_type d Indentation)
    + List.length (get_errors_by_type d Syntax)
    + List.length (get_errors_by_type d Undefined)
    + List.length (get_errors_by_type d Import)
    + List.length (get_errors_by_type d TypeErr)
    + List.length (get_errors_by_type d Logic)
    + List.length (get_errors_by_type d Unknown) /\
  (forall t e, In e (get_errors_by_type d t) <-> In e (error_history d) /\ error_type e = t).
Proof.
  split.
  - destruct d as [h c]. cbn [error_history].
    rewrite (by_type_lengths h c) at 1. cbn [fold_right]. lia.
  - intros t e. unfold get_errors_by_type. rewrite filter_In, ErrorType_eqb_eq. tauto.
Qed.

(** ** Reports built by [create_error_info] *)

Lemma classify_string (m : string) :
  _classify_error (PyStr m) = inl (classify_in known_patterns m).
Proof.
  destruct m as [|a m]; reflexivity.
Qed.

Lemma py_slice_last_one {A} (h : list A) (e : A) :
  py_slice_from (-1) (h ++ [e]) = [e].
Proof.
  rewrite (py_slice_last 1 _ eq_refl : py_slice_from (-1) _ = last_records 1 _).
  unfold last_records. rewrite length_app. simpl.
  replace (List.length h + 1 - 1) with (List.length h + 0) by lia.
  rewrite skipn_app, Nat.add_0_r, skipn_all, Nat.sub_diag. reflexivity.
Qed.

(** A report built by [create_error_info] is always accepted by
    [add_error]; the record it stores is the last one of the history,
    carries the given message, file, line, action, snippet and traceback,
    is stamped with the previous length of the history, and the file is
    from then on known to [has_error_in_file]. *)
Theorem add_created_report (d : Detector) (m f : string) (l : Z) (a c tb : string) :
  snd (add_error (create_error_info m f l a c tb) d) = Returned tt /\
  get_last_n_errors (fst (add_error (create_error_info m f l a c tb) d)) 1 =
    [mkRecord (List.length (error_history d)) (classify_in known_patterns m)
              (PyStr m) f l a c tb] /\
  has_error_in_file (fst (add_error (create_error_info m f l a c tb) d)) f = true.
Proof.
  rewrite (add_error_returns (create_error_info m f l a c tb) (PyStr m)
             (classify_in known_patterns m) d eq_refl (classify_string m)).
  cbn [fst snd create_error_info r_file r_line r_action r_code_snippet r_traceback
       or_default].
  split; [reflexivity|]. split.
  - unfold get_last_n_errors. cbn [error_history]. rewrite length_app.
    destruct (1 <=? Z.of_nat (List.length (error_history d) + List.length [_]))%Z eqn:E.
    + apply py_slice_last_one.
    + apply Z.leb_gt in E. simpl in E. lia.
  - unfold has_error_in_file. cbn [error_history].
    rewrite existsb_app. simpl. rewrite String.eqb_refl. apply orb_true_r.
Qed.

(** ** The utility queries *)

(** [get_last_n_errors]: for [n >= 1] the last [n] records (all of them when
    there are fewer); for [n = 0] the whole history, not the empty list; for
    a negative [n] the history without its first [-n] records. *)
Theorem get_last_n_errors_cases (d : Detector) (n : Z) :
  ((1 <= n)%Z ->
   get_last_n_errors d n = last_records (Z.to_nat n) (error_history d) /\
   List.length (get_last_n_errors d n)
   = Nat.min (Z.to_nat n) (List.length (error_history d))) /\
  (n = 0%Z -> get_last_n_errors d n = error_history d) /\
  ((n < 0)%Z -> get_last_n_errors d n = skipn (Z.to_nat (- n)) (error_history d)).
Proof.
  unfold get_last_n_errors. repeat split.
  - destruct (n <=? Z.of_nat (List.length (error_history d)))%Z eqn:E.
    + apply py_slice_last. lia.
    + apply Z.leb_gt in E. unfold last_records.
      replace (List.length (error_history d) - Z.to_nat n) with 0 by lia. reflexivity.
  - rewrite <- length_last_records. f_equal.
    destruct (n <=? Z.of_nat (List.length (error_history d)))%Z eqn:E.
    + apply py_slice_last. lia.
    + apply Z.leb_gt in E. unfold last_records.
      replace (List.length (error_history d) - Z.to_nat n) with 0 by lia. reflexivity.
  - intros ->. destruct (0 <=? Z.of_nat (List.length (error_history d)))%Z; reflexivity.
  - intros Hn.
    destruct (n <=? Z.of_nat (List.length (error_history d)))%Z eqn:E;
      [|apply Z.leb_gt in E; lia].
    unfold py_slice_from.
    destruct (- n <? 0)%Z eqn:E'; [apply Z.ltb_lt in E'; lia | reflexivity].
Qed.

Lemma get_last_n_errors_cases_witness :
  get_last_n_errors scenario_A 2 = last_records 2 (error_history scenario_A) /\
  get_last_n_errors scenario_A 0 = error_history scenario_A /\
  get_last_n_errors scenario_A (-2) = skipn 2 (error_history scenario_A).
Proof.
  split; [|split].
  - apply (proj1 (get_last_n_errors_cases scenario_A 2)). lia.
  - apply (proj1 (proj2 (get_last_n_errors_cases scenario_A 0))). reflexivity.
  - apply (proj2 (proj2 (get_last_n_errors_cases scenario_A (-2)))). lia.
Defined.

(** [has_error_in_file] says yes exactly when [get_errors_by_file] returns at
    least one record, and the records returned are those of the history
    that name the file. *)
Theorem has_error_in_file_iff (d : Detector) (f : string) :
  (has_error_in_file d f = true <-> get_errors_by_file d f <> []) /\
  (forall e, In e (get_errors_by_file d f) <-> In e (error_history d) /\ file e = f).
Proof.
  assert (Hin : forall e, In e (get_errors_by_file d f)
                          <-> In e (error_history d) /\ file e = f).
  { intros e. unfold get_errors_by_file. rewrite filter_In, String.eqb_eq. tauto. }
  split; [|exact Hin].
  unfold has_error_in_file. rewrite existsb_exists. split.
  - intros (e & He & Hf) Hnil. apply String.eqb_eq in Hf.
    assert (H : In e (get_errors_by_file d f)) by (apply Hin; now split).
    rewrite Hnil in H. contradiction.
  - intros Hne. destruct (get_errors_by_file d f) as [|e l]; [congruence|].
    destruct (proj1 (Hin e) (or_introl eq_refl)) as [He Hf].
    exists e. split; [exact He | now apply String.eqb_eq].
Qed.

(** ** Classification *)

Lemma ci_eqb_lower a b : ci_eqb a b = true <-> lower a = lower b.
Proof. unfold ci_eqb. apply Ascii.eqb_eq. Qed.

Lemma newline_lower c : Ascii.eqb (lower c) newline = Ascii.eqb c newline.
Proof.
  destruct c as [[] [] [] [] [] [] [] []]; reflexivity.
Qed.

Lemma same_case_newline a b :
  ci_eqb a b = true -> Ascii.eqb a newline = Ascii.eqb b newline.
Proof.
  intros H. apply ci_eqb_lower in H.
  now rewrite <- (newline_lower a), <- (newline_lower b), H.
Qed.

Lemma strip_prefix_same_case l : forall s1 s2,
  same_up_to_case s1 s2 = true ->
  match strip_prefix_ci l s1, strip_prefix_ci l s2 with
  | Some r1, Some r2 => same_up_to_case r1 r2 = true
  | None, None => True
  | _, _ => False
  end.
Proof.
  induction l as [|x l IH]; intros s1 s2 H; [exact H|].
  destruct s1 as [|a s1], s2 as [|b s2]; try discriminate H; simpl; [exact I|].
  simpl in H. apply andb_prop in H as [Hab H].
  apply ci_eqb_lower in Hab. unfold ci_eqb. rewrite Hab.
  destruct (Ascii.eqb (lower x) (lower b)); [now apply IH | exact I].
Qed.

Lemma match_here_dotstar ps s :
  match_here (DotStar :: ps) s =
    match_here ps s ||
    match s with
    | EmptyString => false
    | String c s' => if Ascii.eqb c newline then false else match_here (DotStar :: ps) s'
    end.
Proof. destruct s; reflexivity. Qed.

Lemma match_here_same_case ps : forall s1 s2,
  same_up_to_case s1 s2 = true -> match_here ps s1 = match_here ps s2.
Proof.
  induction ps as [|p ps IH]; intros s1 s2 H; [reflexivity|].
  destruct p as [l|].
  - cbn [match_here]. pose proof (strip_prefix_same_case l s1 s2 H) as Hs.
    destruct (strip_prefix_ci l s1), (strip_prefix_ci l s2); try contradiction.
    + now apply IH.
    + reflexivity.
  - revert s2 H. induction s1 as [|a s1 IHs]; intros s2 H;
      destruct s2 as [|b s2]; try discriminate H.
    + reflexivity.
    + rewrite (match_here_dotstar ps (String a s1)), (match_here_dotstar ps (String b s2)).
      rewrite (IH _ _ H).
      simpl in H. apply andb_prop in H as [Hab H].
      rewrite (same_case_newline a b Hab), (IHs s2 H). reflexivity.
Qed.

Lemma search_seq_same_case ps : forall s1 s2,
  same_up_to_case s1 s2 = true -> search_seq ps s1 = search_seq ps s2.
Proof.
  induction s1 as [|a s1 IH]; intros s2 H; destruct s2 as [|b s2]; try discriminate H.
  - reflexivity.
  - cbn [search_seq]. rewrite (match_here_same_case ps _ _ H).
    simpl in H. apply andb_prop in H as [_ H]. now rewrite (IH s2 H).
Qed.

Lemma classify_in_same_case table s1 s2 :
  same_up_to_case s1 s2 = true -> classify_in table s1 = classify_in table s2.
Proof.
  intros H. induction table as [|[name p] table IH]; [reflexivity|].
  cbn [classify_in].
  assert (Hp : re_search p s1 = re_search p s2).
  { unfold re_search. induction p as [|ps p IHp]; [reflexivity|].
    cbn [existsb]. now rewrite (search_seq_same_case ps s1 s2 H), IHp. }
  now rewrite Hp, IH.
Qed.

(** Classification ignores the case of ASCII letters: two messages that
    differ only in letter case get the same category. *)
Theorem classification_ignores_case (s1 s2 : string) :
  same_up_to_case s1 s2 = true ->
  _classify_error (PyStr s1) = _classify_error (PyStr s2).
Proof.
  intros H. rewrite !classify_string. f_equal.
  now apply classify_in_same_case.
Qed.

Lemma classification_ignores_case_witness :
  _classify_error (PyStr "INDEXERROR: LIST INDEX OUT OF RANGE")
  = _classify_error (PyStr "IndexError: list index out of range").
Proof.
  apply classification_ignores_case. vm_compute. reflexivity.
Defined.

Lemma strip_prefix_ci_app (l post : string) :
  strip_prefix_ci l (l ++ post) = Some post.
Proof.
  induction l as [|a l IH]; [reflexivity|]. simpl.
  unfold ci_eqb. now rewrite Ascii.eqb_refl.
Qed.

Lemma search_seq_literal (l pre post : string) :
  search_seq [Lit l] (pre ++ l ++ post) = true.
Proof.
  induction pre as [|c pre IH].
  - change (EmptyString ++ l ++ post)%string with (l ++ post)%string.
    assert (Hm : match_here [Lit l] (l ++ post) = true).
    { cbn [match_here]. now rewrite strip_prefix_ci_app. }
    destruct (l ++ post)%string; cbn [search_seq]; now rewrite Hm.
  - change (String c pre ++ l ++ post)%string with (String c (pre ++ l ++ post)).
    cbn [search_seq]. rewrite IH. apply orb_true_r.
Qed.

(** Indentation has the highest priority: a message that contains one of
    the four indentation phrases anywhere is classified [indentation],
    whatever else it contains (a syntax or import phrase, for instance). *)
Theorem indentation_phrase_wins (phrase pre post : string) :
  In phrase [ "IndentationError"; "unexpected indent"; "expected an indented block";
              "unindent does not match" ] ->
  _classify_error (PyStr (pre ++ phrase ++ post)) = inl Indentation.
Proof.
  intros Hin. rewrite classify_string. f_equal.
  unfold known_patterns. cbn [classify_in].
  assert (Hs : re_search
                 [ [Lit "IndentationError"]; [Lit "unexpected indent"];
                   [Lit "expected an indented block"]; [Lit "unindent does not match"] ]
                 (pre ++ phrase ++ post) = true).
  { unfold re_search. apply existsb_exists. exists [Lit phrase]. split.
    - simpl in Hin. simpl. intuition (subst; auto).
    - apply search_seq_literal. }
  now rewrite Hs.
Qed.

Lemma indentation_phrase_wins_witness :
  _classify_error
    (PyStr ("SyntaxError: invalid syntax; " ++ "unexpected indent" ++ " (ImportError)"))
  = inl Indentation.
Proof.
  apply indentation_phrase_wins. right. left. reflexivity.
Defined.

(** ** More on loop detection *)

Lemma nodup_all_equal {A} (dec : forall a b : A, {a = b} + {a <> b}) (x : A) (l : list A) :
  l <> [] -> Forall (fun y => y = x) l -> nodup dec l = [x].
Proof.
  induction l as [|y l IH]; intros Hne Hall; [congruence|].
  inversion Hall as [|? ? Hy Hl]; subst. simpl.
  destruct l as [|z l]; [reflexivity|].
  destruct (in_dec dec x (z :: l)) as [_|Hn].
  - apply IH; [discriminate | exact Hl].
  - exfalso. apply Hn. inversion Hl; subst. now left.
Qed.

Lemma detect_loop_window
      (repr_type_set : list ErrorType -> string) (d : Detector) (window_size : Z) :
  (1 <= window_size <= Z.of_nat (List.length (error_history d)))%Z ->
  let window := last_records (Z.to_nat window_size) (error_history d) in
  let error_types := map error_type window in
  detect_loop repr_type_set d window_size =
    match rule_uniform_type error_types with
    | Some reason => (true, Some reason)
    | None =>
    match rule_same_line window with
    | Some reason => (true, Some reason)
    | None =>
    match rule_alternating repr_type_set error_types with
    | Some reason => (true, Some reason)
    | None =>
    match rule_same_file window with
    | Some reason => (true, Some reason)
    | None => (false, None)
    end end end end.
Proof.
  intros Hw. cbv zeta. unfold detect_loop.
  destruct (Z.of_nat (List.length (error_history d)) <? window_size)%Z eqn:E;
    [apply Z.ltb_lt in E; lia|].
  rewrite py_slice_last by lia. reflexivity.
Qed.

Lemma count_in_file (f : string) (win : list ErrorRecord) :
  List.length (filter (fun e => String.eqb (file e) f) win)
  = List.length (filter (fun g => String.eqb g f) (map file win)).
Proof.
  induction win as [|e win IH]; [reflexivity|]. simpl.
  destruct (String.eqb (file e) f); simpl; now rewrite IH.
Qed.

Lemma rule_same_file_files (win1 win2 : list ErrorRecord) :
  map file win1 = map file win2 -> rule_same_file win1 = rule_same_file win2.
Proof.
  intros H. unfold rule_same_file. rewrite H.
  destruct (filter nonempty (map file win2)) as [|f0 fs]; [reflexivity|].
  now rewrite !count_in_file, H.
Qed.

(** The verdict depends only on the types, lines and files of the last
    [window_size] records: two detectors whose windows agree on these get
    the same answer, whatever came before the window and whatever the
    messages, actions, timestamps and counters are. *)
Theorem detect_loop_looks_at_window_only
        (repr_type_set : list ErrorType -> string) (d1 d2 : Detector) (window_size : Z) :
  (1 <= window_size)%Z ->
  (window_size <= Z.of_nat (List.length (error_history d1)))%Z ->
  (window_size <= Z.of_nat (List.length (error_history d2)))%Z ->
  map (fun e => (error_type e, line e, file e))
      (last_records (Z.to_nat window_size) (error_history d1))
  = map (fun e => (error_type e, line e, file e))
        (last_records (Z.to_nat window_size) (error_history d2)) ->
  detect_loop repr_type_set d1 window_size = detect_loop repr_type_set d2 window_size.
Proof.
  intros H1 Hd1 Hd2 Heq.
  rewrite !detect_loop_window by lia. cbv zeta.
  set (w1 := last_records (Z.to_nat window_size) (error_history d1)) in *.
  set (w2 := last_records (Z.to_nat window_size) (error_history d2)) in *.
  assert (Ht : map error_type w1 = map error_type w2).
  { apply (f_equal (map (fun x => fst (fst x)))) in Heq.
    now rewrite !map_map in Heq. }
  assert (Hl : map line w1 = map line w2).
  { apply (f_equal (map (fun x => snd (fst x)))) in Heq.
    now rewrite !map_map in Heq. }
  assert (Hf : map file w1 = map file w2).
  { apply (f_equal (map (fun x : ErrorType * Z * string => snd x))) in Heq.
    now rewrite !map_map in Heq. }
  rewrite Ht, (rule_same_file_files w1 w2 Hf).
  unfold rule_same_line. now rewrite Hl.
Qed.

Lemma detect_loop_looks_at_window_only_witness :
  detect_loop (fun _ => EmptyString)
              (run [ OpAdd (report_of "SyntaxError"); OpAdd (report_of "ImportError") ]) 1
  = detect_loop (fun _ => EmptyString)
                (run [ OpAdd (report_of "cannot import name x") ]) 1.
Proof.
  apply detect_loop_looks_at_window_only; try (simpl; lia).
  reflexivity.
Defined.

(** The same-line rule: when the types of a full window are not uniform
    (or are [unknown]) and at least three of its records carry a line
    number, all of them the same line, [detect_loop] reports that line. *)
Theorem detect_loop_same_line
        (repr_type_set : list ErrorType -> string) (d : Detector) (window_size l : Z) :
  let window := last_records (Z.to_nat window_size) (error_history d) in
  let lines := filter (fun x => (0 <? x)%Z) (map line window) in
  (1 <= window_size <= Z.of_nat (List.length (error_history d)))%Z ->
  rule_uniform_type (map error_type window) = None ->
  3 <= List.length lines ->
  Forall (fun x => x = l) lines ->
  detect_loop repr_type_set d window_size =
    (true, Some ("Repeatedly failing at line " ++ string_of_Z l)%string).
Proof.
  intros window lines Hw Hu H3 Hall.
  rewrite detect_loop_window by lia. cbv zeta. fold window. rewrite Hu.
  unfold rule_same_line. fold lines.
  assert (Hne : lines <> []) by (intros E; rewrite E in H3; simpl in H3; lia).
  unfold line_set. rewrite (nodup_all_equal Z.eq_dec l lines Hne Hall).
  apply Nat.leb_le in H3. rewrite H3. simpl.
  destruct lines as [|l0 ls]; [congruence|].
  inversion Hall; subst. reflexivity.
Qed.

Lemma detect_loop_same_line_witness :
  detect_loop (fun _ => EmptyString) same_line_history 5 =
    (true, Some ("Repeatedly failing at line " ++ string_of_Z 42)%string).
Proof.
  apply detect_loop_same_line.
  - simpl. lia.
  - reflexivity.
  - vm_compute. lia.
  - vm_compute. repeat constructor.
Defined.

Lemma files_all_equal_count (f : string) (win : list ErrorRecord) :
  nonempty f = true ->
  Forall (fun g => g = f) (filter nonempty (map file win)) ->
  List.length (filter (fun e => String.eqb (file e) f) win)
  = List.length (filter nonempty (map file win)).
Proof.
  intros Hf. induction win as [|e win IH]; intros Hall; [reflexivity|].
  simpl in *. destruct (nonempty (file e)) eqn:En.
  - inversion Hall as [|? ? He Hrest]; subst.
    rewrite String.eqb_refl. simpl. now rewrite IH.
  - destruct (String.eqb (file e) f) eqn:Ef; [|now apply IH].
    apply String.eqb_eq in Ef. congruence.
Qed.

(** The same-file rule: when the three earlier rules are silent on a full
    window and at least four of its records name a file, all of them the
    same file, [detect_loop] reports that file.  (The count of records in
    that file, which the code checks again, is then always at least 4.) *)
Theorem detect_loop_same_file
        (repr_type_set : list ErrorType -> string) (d : Detector) (window_size : Z)
        (f : string) :
  let window := last_records (Z.to_nat window_size) (error_history d) in
  let files := filter nonempty (map file window) in
  (1 <= window_size <= Z.of_nat (List.length (error_history d)))%Z ->
  rule_uniform_type (map error_type window) = None ->
  rule_same_line window = None ->
  rule_alternating repr_type_set (map error_type window) = None ->
  4 <= List.length files ->
  Forall (fun g => g = f) files ->
  detect_loop repr_type_set d window_size =
    (true, Some ("Multiple errors in same file: " ++ f)%string).
Proof.
  intros window files Hw Hu Hl Ha H4 Hall.
  rewrite detect_loop_window by lia. cbv zeta. fold window. rewrite Hu, Hl, Ha.
  unfold rule_same_file. fold files.
  assert (Hne : files <> []) by (intros E; rewrite E in H4; simpl in H4; lia).
  unfold file_set. rewrite (nodup_all_equal string_dec f files Hne Hall).
  pose proof H4 as H4'. apply Nat.leb_le in H4'. rewrite H4'.
  change (List.length [f] =? 1) with true. cbn [andb].
  assert (Hf : nonempty f = true).
  { destruct files as [|f0 fs] eqn:E; [congruence|].
    assert (Hin : In f0 files) by (rewrite E; now left).
    unfold files in Hin. apply filter_In in Hin as [_ Hin].
    inversion Hall; subst. exact Hin. }
  pose proof (files_all_equal_count f window Hf Hall) as Hc. fold files in Hc.
  destruct files as [|f0 fs]; [congruence|].
  inversion Hall; subst. cbv zeta. now rewrite Hc, H4'.
Qed.

Lemma detect_loop_same_file_witness :
  detect_loop (fun _ => EmptyString) same_file_history 5 =
    (true, Some ("Multiple errors in same file: " ++ "a.py")%string).
Proof.
  apply detect_loop_same_file.
  - simpl. lia.
  - reflexivity.
  - reflexivity.
  - reflexivity.
  - vm_compute. lia.
  - vm_compute. repeat constructor.
Defined.

(** A [window_size] of 0 or less does not give an empty window:
    [error_history[-window_size:]] then drops the first [-window_size]
    records and keeps the rest, so [detect_loop(0)] examines the whole
    history and [detect_loop(-k)] all but the first [k] records. *)
Theorem detect_loop_nonpositive_window
        (repr_type_set : list ErrorType -> string) (d : Detector) (window_size : Z) :
  (window_size <= 0)%Z ->
  (- window_size < Z.of_nat (List.length (error_history d)))%Z ->
  detect_loop repr_type_set d window_size =
    detect_loop repr_type_set d (Z.of_nat (List.length (error_history d)) + window_size).
Proof.
  intros Hw Hlen. unfold detect_loop.
  set (len := Z.of_nat (List.length (error_history d))) in *.
  destruct (len <? window_size)%Z eqn:E; [apply Z.ltb_lt in E; lia|].
  destruct (len <? len + window_size)%Z eqn:E'; [apply Z.ltb_lt in E'; lia|].
  assert (Hs : py_slice_from (- (len + window_size)) (error_history d)
               = py_slice_from (- window_size) (error_history d)).
  { unfold py_slice_from. fold len.
    destruct (- (len + window_size) <? 0)%Z eqn:E1; [|apply Z.ltb_ge in E1; lia].
    destruct (- window_size <? 0)%Z eqn:E2; [apply Z.ltb_lt in E2; lia|].
    f_equal. lia. }
  now rewrite Hs.
Qed.

Lemma detect_loop_nonpositive_window_witness :
  detect_loop (fun _ => EmptyString) scenario_A 0
  = detect_loop (fun _ => EmptyString) scenario_A
                (Z.of_nat (List.length (error_history scenario_A)) + 0).
Proof.
  apply detect_loop_nonpositive_window; simpl; lia.
Defined.

Lemma detect_loop_alternating_distinct_initials_witness :
  detect_loop (fun _ => EmptyString) syntax_import_history 5 =
    (true, Some ("Alternating between " ++ EmptyString)%string).
Proof.
  apply (detect_loop_alternating_distinct_initials
           (fun _ => EmptyString) syntax_import_history 5 Syntax Import).
  - simpl. lia.
  - discriminate.
  - intros t. vm_compute. destruct t; intuition congruence.
  - reflexivity.
  - reflexivity.
  - reflexivity.
  - vm_compute. discriminate.
Defined.

(** ** The current streak *)

Lemma run_length_spec (t : ErrorType) (l : list ErrorRecord) :
  run_length t l <= List.length l /\
  Forall (fun r => error_type r = t) (firstn (run_length t l) l) /\
  (run_length t l < List.length l ->
   ~ Forall (fun r => error_type r = t) (firstn (S (run_length t l)) l)).
Proof.
  induction l as [|r l (IH1 & IH2 & IH3)]; simpl.
  - split; [lia | split; [constructor | lia]].
  - destruct (ErrorType_eq_dec (error_type r) t) as [E|E]; simpl.
    + split; [lia | split; [now constructor |]].
      intros Hlt Hall. inversion Hall; subst. apply IH3; [lia | assumption].
    + split; [lia | split; [constructor |]].
      intros _ Hall. inversion Hall; subst. contradiction.
Qed.

Lemma last_records_rev {A} (n : nat) (h : list A) :
  last_records n h = rev (firstn n (rev h)).
Proof.
  unfold last_records. rewrite firstn_rev, rev_involutive. reflexivity.
Qed.

Lemma trailing_run_facts (h : list ErrorRecord) (r : ErrorRecord) :
  let h' := h ++ [r] in
  let k := _count_consecutive_same_type h' in
  1 <= k <= List.length h' /\
  Forall (fun e => error_type e = error_type r) (last_records k h') /\
  (k < List.length h' ->
   ~ Forall (fun e => error_type e = error_type r) (last_records (S k) h')).
Proof.
  cbv zeta. unfold _count_consecutive_same_type.
  rewrite !last_records_rev, rev_app_distr, length_app. simpl.
  destruct (run_length_spec (error_type r) (rev h)) as (H1 & H2 & H3).
  rewrite length_rev in *.
  split; [lia | split].
  - apply Forall_app. split; [now apply Forall_rev | now repeat constructor].
  - intros Hlt Hall. apply Forall_app in Hall as [Hall _].
    apply Forall_rev in Hall. rewrite rev_involutive in Hall.
    apply H3; [lia | assumption].
Qed.

Lemma Forall_last_records {A} (P : A -> Prop) (n k : nat) (h : list A) :
  n <= k -> Forall P (last_records k h) -> Forall P (last_records n h).
Proof.
  intros Hnk H. unfold last_records in *.
  replace (List.length h - n) with ((List.length h - n - (List.length h - k))
                                    + (List.length h - k)) by lia.
  rewrite <- skipn_skipn.
  apply Forall_forall. intros x Hx. rewrite Forall_forall in H. apply H.
  rewrite <- (firstn_skipn (List.length h - n - (List.length h - k))
                           (skipn (List.length h - k) h)).
  apply in_or_app. now right.
Qed.

(** [_count_consecutive_same_type] is the length of the longest run of
    records of one type at the end of the history: for a history ending in
    [r] it is at least 1 and at most the length, the last that many records
    all have the type of [r], and one more record would break the run. *)
Theorem count_consecutive_same_type_spec (h : list ErrorRecord) (r : ErrorRecord) :
  let h' := h ++ [r] in
  let k := _count_consecutive_same_type h' in
  1 <= k <= List.length h' /\
  Forall (fun e => error_type e = error_type r) (last_records k h') /\
  (k < List.length h' ->
   ~ Forall (fun e => error_type e = error_type r) (last_records (S k) h')).
Proof. exact (trailing_run_facts h r). Qed.

Lemma consecutive_same_type_window (h : list ErrorRecord) (r : ErrorRecord) (n : nat) :
  1 <= n <= _count_consecutive_same_type (h ++ [r]) ->
  shares_type (error_type r) (last_records n (h ++ [r])).
Proof.
  intros Hn.
  destruct (trailing_run_facts h r) as ((_ & Hk) & Hall & _).
  split.
  - intros E. apply (f_equal (@List.length _)) in E.
    rewrite length_last_records in E. simpl in E. lia.
  - apply (Forall_last_records _ n _ _ (proj2 Hn) Hall).
Qed.

Lemma should_suggest_of_last_three (d : Detector) (t : ErrorType) :
  3 <= List.length (error_history d) -> t <> Unknown ->
  shares_type t (last_records 3 (error_history d)) ->
  should_suggest_alternative_approach d = true.
Proof.
  intros H3 Ht Hs. unfold should_suggest_alternative_approach.
  destruct (List.length (error_history d) <? 3) eqn:E3;
    [apply Nat.ltb_lt in E3; lia|].
  destruct ((5 <=? List.length (error_history d)) &&
            (4 <=? List.length (py_slice_from (-5) (error_history d)))); [reflexivity|].
  rewrite (py_slice_last 3 (error_history d) eq_refl
           : py_slice_from (-3) _ = last_records 3 _).
  rewrite (proj2 (last_three_test (last_records 3 (error_history d))));
    [|exists t; now split].
  apply Nat.leb_le in H3. now rewrite H3.
Qed.

(** A streak is acted upon: when the history ends with a run of [k] records
    of one type other than [unknown], [detect_loop] reports a repetitive
    loop for every window size from 1 to [k], and from [k = 3] on
    [should_suggest_alternative_approach] says yes. *)
Theorem streak_triggers_verdicts
        (repr_type_set : list ErrorType -> string) (d : Detector)
        (h : list ErrorRecord) (r : ErrorRecord) :
  error_history d = h ++ [r] -> error_type r <> Unknown ->
  (forall window_size,
     (1 <= window_size <= Z.of_nat (_count_consecutive_same_type (error_history d)))%Z ->
     detect_loop repr_type_set d window_size =
       (true, Some ("Repetitive " ++ type_name (error_type r) ++ " errors detected")%string)) /\
  (3 <= _count_consecutive_same_type (error_history d) ->
   should_suggest_alternative_approach d = true).
Proof.
  intros Hh Hr. rewrite Hh.
  destruct (trailing_run_facts h r) as ((_ & Hk) & _). cbv zeta in Hk.
  split.
  - intros w Hw.
    assert (Hs : shares_type (error_type r) (last_records (Z.to_nat w) (h ++ [r])))
      by (apply consecutive_same_type_window; lia).
    rewrite detect_loop_window by (rewrite Hh; lia). cbv zeta. rewrite Hh.
    destruct (shares_type_types _ _ Hs) as (rest & Hty & Hset).
    unfold rule_uniform_type. rewrite Hset, Hty. simpl.
    destruct (ErrorType_eq_dec (error_type r) Unknown); [contradiction | reflexivity].
  - intros H3. apply (should_suggest_of_last_three d (error_type r)); trivial.
    + rewrite Hh. lia.
    + rewrite Hh. apply consecutive_same_type_window. lia.
Qed.

Lemma streak_triggers_verdicts_witness :
  (forall window_size,
     (1 <= window_size
      <= Z.of_nat (_count_consecutive_same_type (error_history import_streak_history)))%Z ->
     detect_loop (fun _ => EmptyString) import_streak_history window_size =
       (true, Some ("Repetitive " ++ type_name Import ++ " errors detected")%string)) /\
  (3 <= _count_consecutive_same_type (error_history import_streak_history) ->
   should_suggest_alternative_approach import_streak_history = true).
Proof.
  apply (streak_triggers_verdicts (fun _ => EmptyString) import_streak_history
           (removelast (error_history import_streak_history))
           (mkRecord 3 Import (PyStr "ImportError: cannot import name baz") EmptyString 0
                     EmptyString EmptyString EmptyString)).
  - reflexivity.
  - discriminate.
Defined.

(** ** Recovery attempts and the error rate *)

Lemma count_recovery_attempts_snoc (h : list ErrorRecord) (p e : ErrorRecord) :
  _count_recovery_attempts (h ++ [p; e]) =
    _count_recovery_attempts (h ++ [p]) + (if is_recovery_attempt p e then 1 else 0).
Proof.
  induction h as [|x h IH]; [simpl; lia|].
  destruct h as [|y h].
  - simpl. lia.
  - change (_count_recovery_attempts ((x :: y :: h) ++ [p; e]))
      with ((if is_recovery_attempt x y then 1 else 0)
            + _count_recovery_attempts ((y :: h) ++ [p; e])).
    change (_count_recovery_attempts ((x :: y :: h) ++ [p]))
      with ((if is_recovery_attempt x y then 1 else 0)
            + _count_recovery_attempts ((y :: h) ++ [p])).
    rewrite IH. lia.
Qed.

Lemma count_recovery_attempts_bound (h : list ErrorRecord) :
  _count_recovery_attempts h <= pred (List.length h).
Proof.
  induction h as [|x h IH]; [simpl; lia|].
  destruct h as [|y h]; [simpl; lia|].
  change (_count_recovery_attempts (x :: y :: h))
    with ((if is_recovery_attempt x y then 1 else 0) + _count_recovery_attempts (y :: h)).
  simpl List.length in *. simpl pred in *.
  destruct (is_recovery_attempt x y); lia.
Qed.

Lemma no_attempt_without_line (p e : ErrorRecord) :
  (line e <= 0)%Z -> is_recovery_attempt p e = false.
Proof.
  intros H. unfold is_recovery_attempt.
  replace (0 <? line e)%Z with false by (symmetry; apply Z.ltb_ge; lia).
  now rewrite !andb_false_r.
Qed.

Lemma nonempty_iff (f : string) : nonempty f = true <-> f <> EmptyString.
Proof.
  unfold nonempty. rewrite negb_true_iff. split.
  - intros H ->. discriminate H.
  - intros H. destruct f; [congruence | reflexivity].
Qed.

Lemma is_recovery_attempt_iff (p e : ErrorRecord) :
  is_recovery_attempt p e = true <-> recovery_attempt p e.
Proof.
  unfold is_recovery_attempt, recovery_attempt.
  destruct ((line e =? line p)%Z && (0 <? line e)%Z) eqn:E1.
  - apply andb_prop in E1 as [Ha Hb]. apply Z.eqb_eq in Ha. apply Z.ltb_lt in Hb.
    split; [intros _; left; now split | reflexivity].
  - destruct (String.eqb (file e) (file p) && nonempty (file e) && (0 <? line e)%Z
              && (0 <? line p)%Z && (Z.abs (line e - line p) <=? 10)%Z) eqn:E2.
    + repeat (apply andb_prop in E2 as [E2 ?]).
      split; [intros _ | reflexivity]. right.
      repeat split;
        [now apply String.eqb_eq | now apply nonempty_iff
         | now apply Z.ltb_lt | now apply Z.ltb_lt | now apply Z.leb_le].
    + split; [discriminate|]. intros [[Ha Hb] | (Hf & Hn & Hl & Hp & Hd)]; exfalso.
      * apply Z.eqb_eq in Ha. apply Z.ltb_lt in Hb. rewrite Ha, Hb in E1. discriminate.
      * apply String.eqb_eq in Hf. apply nonempty_iff in Hn.
        apply Z.ltb_lt in Hl, Hp. apply Z.leb_le in Hd.
        rewrite Hf, Hn, Hl, Hp, Hd in E2. discriminate.
Qed.

(** [_count_recovery_attempts] counts the adjacent pairs that are recovery
    attempts: it is 0 for a history of at most one record and never more
    than the number of adjacent pairs; a record appended after a last
    record [p] adds exactly one when it is an attempt on [p] (same positive
    line, or same non-empty file with both lines positive and at most 10
    apart) and nothing otherwise; a history without positive line numbers
    has none. *)
Theorem count_recovery_attempts_facts (h : list ErrorRecord) :
  _count_recovery_attempts [] = 0 /\
  (forall p, _count_recovery_attempts [p] = 0) /\
  (h <> [] -> _count_recovery_attempts h < List.length h) /\
  (forall p e, recovery_attempt p e ->
     _count_recovery_attempts (h ++ [p; e]) = S (_count_recovery_attempts (h ++ [p]))) /\
  (forall p e, ~ recovery_attempt p e ->
     _count_recovery_attempts (h ++ [p; e]) = _count_recovery_attempts (h ++ [p])) /\
  (Forall (fun e => (line e <= 0)%Z) h -> _count_recovery_attempts h = 0).
Proof.
  split; [reflexivity|]. split; [reflexivity|]. split.
  { intros Hne. pose proof (count_recovery_attempts_bound h).
    destruct h; [congruence | simpl List.length in *; simpl pred in *; lia]. }
  split.
  { intros p e Ha. rewrite count_recovery_attempts_snoc.
    apply is_recovery_attempt_iff in Ha. rewrite Ha. lia. }
  split.
  { intros p e Ha. rewrite count_recovery_attempts_snoc.
    destruct (is_recovery_attempt p e) eqn:E; [|lia].
    apply is_recovery_attempt_iff in E. contradiction. }
  induction h as [|x h IH]; intros Hall; [reflexivity|].
  destruct h as [|y h]; [reflexivity|].
  change (_count_recovery_attempts (x :: y :: h))
    with ((if is_recovery_attempt x y then 1 else 0) + _count_recovery_attempts (y :: h)).
  inversion Hall as [|? ? Hx Hrest]; subst.
  rewrite (IH Hrest). inversion Hrest; subst.
  now rewrite no_attempt_without_line.
Qed.

Lemma count_recovery_attempts_facts_witness :
  _count_recovery_attempts (error_history same_line_history)
  < List.length (error_history same_line_history) /\
  _count_recovery_attempts
    (error_history same_line_history
     ++ [ mkRecord 5 Syntax (PyStr "SyntaxError") "a.py" 42 EmptyString EmptyString
                   EmptyString;
          mkRecord 6 Logic (PyStr "KeyError") "b.py" 42 EmptyString EmptyString
                   EmptyString ])
  = S (_count_recovery_attempts
         (error_history same_line_history
          ++ [ mkRecord 5 Syntax (PyStr "SyntaxError") "a.py" 42 EmptyString EmptyString
                        EmptyString ])).
Proof.
  destruct (count_recovery_attempts_facts (error_history same_line_history))
    as (_ & _ & Hlt & Hyes & _).
  split.
  - apply Hlt. vm_compute. discriminate.
  - apply Hyes. left. split; [reflexivity | simpl; lia].
Defined.

(** [get_error_rate] lies between 0 and 1; it is 0 only for the empty
    history and reaches 1 exactly when the history has five records or
    more. *)
Theorem get_error_rate_bounds (h : list ErrorRecord) :
  (0 <= get_error_rate h)%Q /\ (get_error_rate h <= 1)%Q /\
  ((get_error_rate h == 0)%Q <-> h = []) /\
  ((get_error_rate h == 1)%Q <-> 5 <= List.length h).
Proof.
  destruct h as [|x h].
  - simpl. unfold Qle, Qeq. simpl. repeat split; intros; try lia; try reflexivity.
  - unfold get_error_rate.
    set (n := List.length (x :: h)).
    assert (Hn : 1 <= n) by (unfold n; simpl; lia).
    assert (E : (inject_Z (Z.of_nat (Nat.min n 5)) / inject_Z (Z.of_nat 5)
                 == Z.of_nat (Nat.min n 5) # 5)%Q).
    { unfold Qeq, Qdiv, Qmult, Qinv, inject_Z. simpl. lia. }
    rewrite E. clearbody n. unfold Qle, Qeq. cbn [Qnum Qden].
    repeat split; intros; try lia; try discriminate.
Qed.

(** ** Counting by file and by line *)

Section TallyFacts.

Context {K : Type} (dec : forall a b : K, {a = b} + {a <> b}).
Variable key : ErrorRecord -> K.
Variable sel : ErrorRecord -> bool.

Lemma dd_lookup_setitem_same k v c : dd_lookup dec k (dd_setitem dec k v c) = Some v.
Proof.
  induction c as [|[k' n] c IH]; simpl.
  - destruct (dec k k); congruence.
  - destruct (dec k k') as [->|Hne]; simpl.
    + destruct (dec k' k'); congruence.
    + destruct (dec k k'); [contradiction | exact IH].
Qed.

Lemma dd_lookup_setitem_other k k0 v c :
  k0 <> k -> dd_lookup dec k0 (dd_setitem dec k v c) = dd_lookup dec k0 c.
Proof.
  intros Hne. induction c as [|[k' n] c IH]; simpl.
  - destruct (dec k0 k); [contradiction | reflexivity].
  - destruct (dec k k') as [->|Hk]; simpl.
    + destruct (dec k0 k'); [contradiction | reflexivity].
    + destruct (dec k0 k'); [reflexivity | exact IH].
Qed.

Lemma dd_in_setitem kv k v c :
  In kv (dd_setitem dec k v c) -> In kv c \/ kv = (k, v).
Proof.
  induction c as [|[k' n] c IH]; simpl.
  - intros [H|[]]. now right.
  - destruct (dec k k') as [->|Hne]; simpl.
    + intros [H|H]; [now right | left; now right].
    + intros [H|H]; [left; now left|]. destruct (IH H); [left; now right | now right].
Qed.

Lemma dd_keys_setitem k v c :
  forall x, In x (map fst (dd_setitem dec k v c)) <-> x = k \/ In x (map fst c).
Proof.
  induction c as [|[k' n] c IH]; intros x; simpl.
  - intuition congruence.
  - destruct (dec k k') as [->|Hne]; simpl.
    + intuition congruence.
    + rewrite IH. intuition congruence.
Qed.

Lemma dd_nodup_setitem k v c :
  NoDup (map fst c) -> NoDup (map fst (dd_setitem dec k v c)).
Proof.
  induction c as [|[k' n] c IH]; simpl; intros H.
  - repeat constructor. simpl. tauto.
  - destruct (dec k k') as [->|Hne]; simpl; [exact H|].
    inversion H as [|? ? Hn Hc]; subst. constructor; [|now apply IH].
    rewrite dd_keys_setitem. intuition congruence.
Qed.

Lemma dd_lookup_in k n c : dd_lookup dec k c = Some n -> In (k, n) c.
Proof.
  induction c as [|[k' n'] c IH]; simpl; [discriminate|].
  destruct (dec k k') as [->|Hne].
  - intros [= ->]. now left.
  - intros H. right. now apply IH.
Qed.

Lemma dd_in_lookup k n c :
  NoDup (map fst c) -> In (k, n) c -> dd_lookup dec k c = Some n.
Proof.
  induction c as [|[k' n'] c IH]; simpl; intros Hnd Hin; [contradiction|].
  inversion Hnd as [|? ? Hn Hc]; subst.
  destruct Hin as [[= -> ->] | Hin].
  - destruct (dec k k); congruence.
  - destruct (dec k k') as [->|Hne]; [|now apply IH].
    exfalso. apply Hn. change k' with (fst (k', n)). now apply in_map.
Qed.

Lemma tally_snoc h e :
  tally dec key sel (h ++ [e]) =
    if sel e then dd_increment dec (key e) (tally dec key sel h) else tally dec key sel h.
Proof. unfold tally. now rewrite fold_left_app. Qed.

Lemma tallied_snoc k h e :
  tallied dec key sel k (h ++ [e]) =
    tallied dec key sel k h
    + (if sel e && (if dec (key e) k then true else false) then 1 else 0).
Proof.
  unfold tallied. rewrite filter_app, length_app. simpl.
  now destruct (sel e && (if dec (key e) k then true else false)).
Qed.

Lemma tally_invariant h : tally_ok dec key sel (tally dec key sel h) h.
Proof.
  induction h as [|e h (Hnd & Hpos & Hcnt)] using rev_ind.
  - repeat split; simpl; [constructor | tauto].
  - rewrite tally_snoc. unfold tally_ok.
    destruct (sel e) eqn:Es.
    + unfold dd_increment. split; [now apply dd_nodup_setitem|]. split.
      * intros kv H. apply dd_in_setitem in H as [H | ->]; [now apply Hpos | simpl; lia].
      * intros k. rewrite tallied_snoc, Es. simpl. unfold dd_count at 1.
        destruct (dec (key e) k) as [<-|Hne].
        -- rewrite dd_lookup_setitem_same, Hcnt. reflexivity.
        -- rewrite dd_lookup_setitem_other by congruence.
           fold (dd_count dec k (tally dec key sel h)). rewrite Hcnt. lia.
    + split; [exact Hnd|]. split; [exact Hpos|].
      intros k. rewrite tallied_snoc, Es, Hcnt. simpl. lia.
Qed.

Lemma tally_item k n h :
  In (k, n) (tally dec key sel h) <-> 1 <= n /\ n = tallied dec key sel k h.
Proof.
  destruct (tally_invariant h) as (Hnd & Hpos & Hcnt). split.
  - intros Hin. split; [exact (Hpos _ Hin)|].
    rewrite <- Hcnt. unfold dd_count. now rewrite (dd_in_lookup k n _ Hnd Hin).
  - intros [Hn ->]. apply dd_lookup_in.
    specialize (Hcnt k). unfold dd_count in Hcnt.
    destruct (dd_lookup dec k (tally dec key sel h)); [congruence | lia].
Qed.

Lemma dd_max_from_max (best : K * nat) rest :
  In (dd_max_from best rest) (best :: rest) /\
  (forall p, In p (best :: rest) -> snd p <= snd (dd_max_from best rest)).
Proof.
  revert best. induction rest as [|kv rest IH]; intros best; simpl.
  - split; [now left|]. intros p [<- | []]. lia.
  - destruct (snd best <? snd kv) eqn:E.
    + apply Nat.ltb_lt in E. destruct (IH kv) as [Hin Hmax]. split.
      * right. exact Hin.
      * intros p [<- | Hp]; [|now apply Hmax].
        specialize (Hmax kv (or_introl eq_refl)). lia.
    + apply Nat.ltb_ge in E. destruct (IH best) as [Hin Hmax]. split.
      * destruct Hin as [Hin | Hin]; [now left | right; now right].
      * intros p [<- | [<- | Hp]].
        -- apply Hmax. now left.
        -- specialize (Hmax best (or_introl eq_refl)). lia.
        -- apply Hmax. now right.
Qed.

End TallyFacts.

Lemma tallied_by_file (f : string) (h : list ErrorRecord) :
  tallied string_dec file (fun e => nonempty (file e)) f h =
    if nonempty f then List.length (filter (fun e => String.eqb (file e) f) h) else 0.
Proof.
  unfold tallied. induction h as [|e h IH]; [now destruct (nonempty f)|].
  simpl. destruct (string_dec (file e) f) as [E|E].
  - rewrite E, String.eqb_refl, andb_true_r in *.
    destruct (nonempty f); simpl; now rewrite IH.
  - rewrite andb_false_r.
    destruct (String.eqb (file e) f) eqn:Ef;
      [apply String.eqb_eq in Ef; contradiction | exact IH].
Qed.

Lemma filter_length_positive {A} (p : A -> bool) (l : list A) :
  1 <= List.length (filter p l) <-> exists x, In x l /\ p x = true.
Proof.
  split.
  - destruct (filter p l) as [|x r] eqn:E; simpl; [lia|]. intros _.
    exists x. apply filter_In. rewrite E. now left.
  - intros (x & Hx & Hp).
    assert (H : In x (filter p l)) by (apply filter_In; now split).
    destruct (filter p l); [contradiction | simpl; lia].
Qed.

Lemma file_counts_item (h : list ErrorRecord) (k : string) (n : nat) :
  In (k, n) (file_counts h) <->
  k <> EmptyString /\ 1 <= n /\
  n = List.length (filter (fun e => String.eqb (file e) k) h).
Proof.
  unfold file_counts.
  rewrite (tally_item string_dec file (fun e => nonempty (file e)) k n h).
  rewrite tallied_by_file. destruct (nonempty k) eqn:Ek.
  - apply nonempty_iff in Ek. tauto.
  - split; [lia|]. intros (Hne & _). apply nonempty_iff in Hne. congruence.
Qed.

(** [get_most_problematic_file] returns a file that is named by some record
    and that no other file beats in number of records; it returns None
    exactly when no record names a file. *)
Theorem most_problematic_file_spec (d : Detector) :
  (forall f, get_most_problematic_file d = Some f ->
             f <> EmptyString /\ has_error_in_file d f = true /\
             forall g, g <> EmptyString ->
                       List.length (get_errors_by_file d g)
                       <= List.length (get_errors_by_file d f)) /\
  (get_most_problematic_file d = None <->
   Forall (fun e => file e = EmptyString) (error_history d)).
Proof.
  destruct d as [h c].
  unfold get_most_problematic_file, has_error_in_file, get_errors_by_file.
  cbn [error_history]. split.
  - intros f Hf. destruct h as [|e0 h0]; [discriminate|].
    set (h := e0 :: h0) in *.
    destruct (file_counts h) as [|kv rest] eqn:Efc; [discriminate|].
    injection Hf as <-.
    destruct (dd_max_from_max kv rest) as [Hin Hmax].
    destruct (dd_max_from kv rest) as [f n]. cbn [fst snd] in *.
    rewrite <- Efc in Hin. apply file_counts_item in Hin as (Hne & H1 & Hn).
    split; [exact Hne|]. split.
    + apply existsb_exists. rewrite Hn in H1.
      apply filter_length_positive in H1. exact H1.
    + intros g Hg. rewrite <- Hn.
      destruct (List.length (filter (fun e => String.eqb (file e) g) h)) as [|m] eqn:Eg;
        [lia|].
      assert (Hg' : In (g, S m) (file_counts h)).
      { apply file_counts_item. rewrite Eg. repeat split; [exact Hg | lia]. }
      rewrite Efc in Hg'. apply Hmax in Hg'. exact Hg'.
  - split.
    + intros Hnone. apply Forall_forall. intros e He.
      destruct (string_dec (file e) EmptyString) as [|Hne]; [assumption|].
      exfalso.
      assert (Hin : In (file e, List.length (filter (fun x => String.eqb (file x) (file e)) h))
                       (file_counts h)).
      { apply file_counts_item. split; [exact Hne|]. split; [|reflexivity].
        apply filter_length_positive.
        exists e. split; [exact He | apply String.eqb_refl]. }
      destruct h as [|e0 h0]; [contradiction|].
      destruct (file_counts (e0 :: h0)); [contradiction | discriminate].
    + intros Hall. destruct h as [|e0 h0]; [reflexivity|].
      destruct (file_counts (e0 :: h0)) as [|[k n] rest] eqn:Efc; [reflexivity|].
      exfalso.
      assert (Hin : In (k, n) (file_counts (e0 :: h0))) by (rewrite Efc; now left).
      apply file_counts_item in Hin as (Hne & H1 & Hn).
      rewrite Hn in H1. apply filter_length_positive in H1 as (e & He & Hf).
      apply String.eqb_eq in Hf. rewrite Forall_forall in Hall.
      specialize (Hall e He). congruence.
Qed.

Lemma tallied_by_line (f : string) (l : Z) (h : list ErrorRecord) :
  tallied Z.eq_dec line (fun e => String.eqb (file e) f && (0 <? line e)%Z) l h =
    if (0 <? l)%Z then errors_at f l h else 0.
Proof.
  unfold tallied, errors_at. induction h as [|e h IH]; [now destruct (0 <? l)%Z|].
  simpl. destruct (Z.eq_dec (line e) l) as [E|E].
  - rewrite E, Z.eqb_refl, !andb_true_r in *.
    destruct (0 <? l)%Z; rewrite ?andb_false_r, ?andb_true_r;
      [destruct (String.eqb (file e) f); simpl; now rewrite IH | exact IH].
  - rewrite !andb_false_r.
    replace (line e =? l)%Z with false by (symmetry; now apply Z.eqb_neq).
    rewrite andb_false_r. exact IH.
Qed.

Lemma NoDup_keys_filter {A B} (p : A * B -> bool) (c : list (A * B)) :
  NoDup (map fst c) -> NoDup (map fst (filter p c)).
Proof.
  induction c as [|x c IH]; simpl; intros H; [constructor|].
  inversion H as [|? ? Hn Hc]; subst.
  destruct (p x); simpl; [|now apply IH].
  constructor; [|now apply IH].
  intros Hin. apply Hn. apply in_map_iff in Hin as (y & Hy & Hin).
  apply filter_In in Hin as [Hin _]. rewrite <- Hy. now apply in_map.
Qed.

(** [get_problematic_lines] lists, each once, the positive line numbers of
    the file that have at least one record and at least [threshold] records
    (so a threshold of 1 or less lists every line of the file that has a
    record). *)
Theorem problematic_lines_spec (d : Detector) (f : string) (threshold : Z) :
  NoDup (get_problematic_lines d f threshold) /\
  forall l, In l (get_problematic_lines d f threshold) <->
            (0 < l)%Z /\ 1 <= errors_at f l (error_history d) /\
            (threshold <= Z.of_nat (errors_at f l (error_history d)))%Z.
Proof.
  set (h := error_history d).
  pose proof (tally_invariant Z.eq_dec line
                (fun e => String.eqb (file e) f && (0 <? line e)%Z) h) as (Hnd & _).
  assert (Hitem : forall l n, In (l, n) (line_counts f h) <->
                              1 <= n /\ n = if (0 <? l)%Z then errors_at f l h else 0).
  { intros l n. rewrite <- tallied_by_line.
    exact (tally_item Z.eq_dec line
             (fun e => String.eqb (file e) f && (0 <? line e)%Z) l n h). }
  unfold get_problematic_lines. fold h. split.
  - apply NoDup_keys_filter. exact Hnd.
  - intros l. rewrite in_map_iff. split.
    + intros ([l' n] & Hl & Hin). simpl in Hl. subst l'.
      apply filter_In in Hin as [Hin Hth]. simpl in Hth. apply Z.leb_le in Hth.
      apply Hitem in Hin as [Hn Heq].
      destruct (0 <? l)%Z eqn:El; [|lia]. apply Z.ltb_lt in El.
      rewrite <- Heq. repeat split; assumption.
    + intros (Hl & H1 & Hth). exists (l, errors_at f l h). split; [reflexivity|].
      apply filter_In. split.
      * apply Hitem. apply Z.ltb_lt in Hl. rewrite Hl. now split.
      * simpl. now apply Z.leb_le.
Qed.

(** ** Statistics of a reachable detector *)

Lemma reachable_state_invariant d : reachable d -> state_invariant d.
Proof.
  intros [ops ->]. exact (fold_step_invariant ops init init_invariant).
Qed.

Lemma length_file_set (l : list string) : List.length (file_set l) <= List.length l.
Proof.
  unfold file_set. apply NoDup_incl_length; [apply NoDup_nodup|].
  intros x Hx. now apply nodup_In in Hx.
Qed.

(** The statistics of a reachable detector with a non-empty history hang
    together: [total_errors] is the length of the history, the counts in
    [by_type] add up to it, [recent_errors] is [min(5, total)], there are at
    most as many distinct files as records and fewer recovery attempts than
    records. *)
Theorem get_statistics_consistent (d : Detector) :
  reachable d -> error_history d <> [] ->
  let total := List.length (error_history d) in
  stat "total_errors" (get_statistics d) = Some (SInt total) /\
  stat "recent_errors" (get_statistics d) = Some (SInt (Nat.min 5 total)) /\
  (exists c, stat "by_type" (get_statistics d) = Some (SByType c) /\
             sum_counts c = total) /\
  (exists u, stat "unique_files_affected" (get_statistics d) = Some (SInt u) /\
             u <= total) /\
  (exists a, stat "recovery_attempts" (get_statistics d) = Some (SInt a) /\
             a < total).
Proof.
  intros Hr Hne. cbv zeta.
  destruct (reachable_state_invariant d Hr) as [_ Hsum].
  unfold get_statistics.
  destruct (error_history d) as [|e h] eqn:Eh; [congruence|].
  set (h' := e :: h) in *.
  split; [reflexivity|]. split.
  - cbn [stat String.eqb Ascii.eqb Bool.eqb].
    rewrite (py_slice_last 5 h' eq_refl : py_slice_from (-5) _ = last_records 5 _).
    now rewrite length_last_records.
  - split; [exists (pattern_counters d); now split|]. split.
    + eexists. split; [reflexivity|].
      etransitivity; [apply length_file_set|].
      etransitivity; [apply filter_length_le|]. now rewrite length_map.
    + eexists. split; [reflexivity|].
      pose proof (count_recovery_attempts_bound h'). simpl List.length in *. lia.
Qed.

Lemma get_statistics_consistent_witness :
  stat "total_errors" (get_statistics scenario_F)
  = Some (SInt (List.length (error_history scenario_F))) /\
  stat "recent_errors" (get_statistics scenario_F)
  = Some (SInt (Nat.min 5 (List.length (error_history scenario_F)))) /\
  (exists c, stat "by_type" (get_statistics scenario_F) = Some (SByType c) /\
             sum_counts c = List.length (error_history scenario_F)) /\
  (exists u, stat "unique_files_affected" (get_statistics scenario_F) = Some (SInt u) /\
             u <= List.length (error_history scenario_F)) /\
  (exists a, stat "recovery_attempts" (get_statistics scenario_F) = Some (SInt a) /\
             a < List.length (error_history scenario_F)).
Proof.
  apply get_statistics_consistent.
  - eexists. reflexivity.
  - vm_compute. discriminate.
Defined.

Lemma get_recovery_suggestion_keeps_state_witness :
  fst (get_recovery_suggestion seven_syntax_errors) = seven_syntax_errors.
Proof.
  apply get_recovery_suggestion_keeps_state. eexists. reflexivity.
Defined.
